(** * Course management: the row-level security layer and its clients

    A shallow embedding of
    - [supabase/migrations/20251119074224_*.sql]: the tables [enrollments],
      [assignments], [submissions], [notifications], their constraints and
      their row-level security (RLS) policies;
    - [StudentDashboard.handleEnroll] and [fetchData],
      [EnrollmentsPage.fetchEnrollments], [AnalyticsPage.fetchAnalytics] with
      the completion rate it shows, the grading update of
      [LecturerSubmissionsPage] and [calculateAverageGrade] of
      [StudentProgressPage].

    Tables are lists of rows.  A policy is a record holding the command it is
    declared for and its [USING] / [WITH CHECK] expressions; the expressions
    are boolean functions of the session principal, the database (policies
    contain sub-queries, which run under the policies of the tables they
    read) and the row.  A statement is a function from the session principal
    and the database to the [{ data, error }] answer of the store.

    The policies of [public.courses], [has_role] and the edge functions that
    write notifications are not among the sources; where a definition stands
    for one of them its comment says so. *)

From Stdlib Require Import QArith.Qcanon QArith.Qround.
From stdpp Require Import base decidable option numbers strings list sorting.

Abbreviation uuid := N (only parsing).
Abbreviation timestamptz := Z (only parsing).

(** ** Session principal *)

Inductive app_role := admin | lecturer | student.

#[global] Instance app_role_eq_dec : EqDecision app_role.
Proof. solve_decision. Defined.

Record Principal := { pid : uuid; role : app_role }.

(** [auth.uid()] of the session. *)
Definition auth_uid (p : Principal) : uuid := pid p.

(** Modelled from the spec: [has_role] is defined by an earlier migration
    that is not among the sources.  A principal has exactly one role, read
    from a single authoritative source, so [has_role(auth.uid(), r)] holds
    exactly when [r] is the role of the session principal. *)
Definition has_role (p : Principal) (r : app_role) : bool :=
  bool_decide (role p = r).

(** ** Rows *)

Module Course.
Record t := {
  id : uuid;
  title : string;
  description : option string;
  created_by : uuid;
  lecturer_id : option uuid
}.
End Course.

Module Enrollment.
Record t := {
  id : uuid;
  student_id : uuid;
  course_id : uuid;
  enrolled_at : timestamptz;
  status : string
}.
End Enrollment.

Module Assignment.
Record t := {
  id : uuid;
  course_id : uuid;
  title : string;
  description : option string;
  due_date : timestamptz;
  max_grade : Z;
  created_by : uuid;
  created_at : timestamptz;
  updated_at : timestamptz
}.
End Assignment.

Module Submission.
Record t := {
  id : uuid;
  assignment_id : uuid;
  student_id : uuid;
  content : string;
  file_url : option string;
  submitted_at : timestamptz;
  grade : option Z;
  feedback : option string;
  graded_at : option timestamptz;
  graded_by : option uuid
}.
End Submission.

Module Notification.
Record t := {
  id : uuid;
  user_id : uuid;
  type : string;
  title : string;
  message : string;
  read : bool;
  created_at : timestamptz
}.
End Notification.

#[global] Instance course_eq_dec : EqDecision Course.t.
Proof. solve_decision. Defined.
#[global] Instance enrollment_eq_dec : EqDecision Enrollment.t.
Proof. solve_decision. Defined.
#[global] Instance assignment_eq_dec : EqDecision Assignment.t.
Proof. solve_decision. Defined.
#[global] Instance submission_eq_dec : EqDecision Submission.t.
Proof. solve_decision. Defined.
#[global] Instance notification_eq_dec : EqDecision Notification.t.
Proof. solve_decision. Defined.

(** ** Database *)

Record DB := {
  users : list uuid;                       (* auth.users(id) *)
  courses : list Course.t;
  enrollments : list Enrollment.t;
  assignments : list Assignment.t;
  submissions : list Submission.t;
  notifications : list Notification.t
}.

Definition with_enrollments (db : DB) (rows : list Enrollment.t) : DB :=
  {| users := users db; courses := courses db; enrollments := rows;
     assignments := assignments db; submissions := submissions db;
     notifications := notifications db |}.

Definition with_submissions (db : DB) (rows : list Submission.t) : DB :=
  {| users := users db; courses := courses db; enrollments := enrollments db;
     assignments := assignments db; submissions := rows;
     notifications := notifications db |}.

Definition with_notifications (db : DB) (rows : list Notification.t) : DB :=
  {| users := users db; courses := courses db; enrollments := enrollments db;
     assignments := assignments db; submissions := submissions db;
     notifications := rows |}.

(** ** Results of a store call: [{ data, error }] *)

Inductive store_error :=
  | Forbidden     (* new row violates row-level security policy *)
  | Conflict      (* duplicate key value violates unique constraint *)
  | NotFound.     (* insert or update violates foreign key constraint *)

#[global] Instance store_error_eq_dec : EqDecision store_error.
Proof. solve_decision. Defined.

Inductive response (A : Type) :=
  | Data (a : A)
  | Error (e : store_error).
Arguments Data {A} a.
Arguments Error {A} e.

Definition error_of {A} (r : response A) : option store_error :=
  match r with Data _ => None | Error e => Some e end.

(** ** Row-level security *)

Inductive command := SELECT | INSERT | UPDATE | DELETE.

#[global] Instance command_eq_dec : EqDecision command.
Proof. solve_decision. Defined.

Inductive policy_cmd := FOR_ALL | FOR (c : command).

Definition rls_expr (Row : Type) := Principal → DB → Row → bool.

Record policy (Row : Type) := POLICY {
  pol_name : string;
  pol_cmd : policy_cmd;
  pol_using : option (rls_expr Row);
  pol_with_check : option (rls_expr Row)
}.
Arguments POLICY {Row} _ _ _ _.
Arguments pol_name {Row} _.
Arguments pol_cmd {Row} _.
Arguments pol_using {Row} _.
Arguments pol_with_check {Row} _.

Section rls.
Context {Row : Type}.

Definition applies_to (c : command) (pol : policy Row) : bool :=
  match pol_cmd pol with
  | FOR_ALL => true
  | FOR c' => bool_decide (c' = c)
  end.

(** The expression a policy contributes to the filter on existing rows. *)
Definition using_expr (pol : policy Row) : rls_expr Row :=
  match pol_using pol with
  | Some e => e
  | None => λ _ _ _, true
  end.

(** The expression a policy contributes to the check on new rows: its
    [WITH CHECK], and its [USING] when it declares no [WITH CHECK]. *)
Definition with_check_expr (pol : policy Row) : rls_expr Row :=
  match pol_with_check pol with
  | Some e => e
  | None => using_expr pol
  end.

(** All policies of the migration are permissive: a row passes when one
    applicable policy accepts it, and no applicable policy means no row. *)
Definition rls_using (pols : list (policy Row)) (c : command)
    (p : Principal) (db : DB) (r : Row) : bool :=
  existsb (λ pol, applies_to c pol && using_expr pol p db r) pols.

Definition rls_with_check (pols : list (policy Row)) (c : command)
    (p : Principal) (db : DB) (r : Row) : bool :=
  existsb (λ pol, applies_to c pol && with_check_expr pol p db r) pols.

(** [UPDATE t SET ... WHERE cond]: the statement touches the rows that
    match [cond], pass the SELECT policies (the WHERE clause reads the
    row) and pass the UPDATE policies.  A row that fails them is skipped
    without an error. *)
Definition update_target (pols : list (policy Row))
    (p : Principal) (db : DB) (cond : Row → bool) (r : Row) : bool :=
  cond r && rls_using pols SELECT p db r && rls_using pols UPDATE p db r.

(** The check on a row written by an UPDATE: the WITH CHECK of the UPDATE
    policies and, the statement having read the table, the USING of the
    SELECT policies as well. *)
Definition update_check (pols : list (policy Row))
    (p : Principal) (db : DB) (r : Row) : bool :=
  rls_with_check pols UPDATE p db r && rls_using pols SELECT p db r.

(** Each new row must pass the check, or the whole statement fails with
    "new row violates row-level security policy"; then the foreign keys
    [fk] of each new row are checked. *)
Definition rls_update (pols : list (policy Row))
    (p : Principal) (db : DB) (cond : Row → bool) (set : Row → Row)
    (fk : Row → bool) (rows : list Row) : response (list Row) :=
  let target := update_target pols p db cond in
  if negb (forallb (λ r, negb (target r) || update_check pols p db (set r))
                   rows)
  then Error Forbidden
  else if negb (forallb (λ r, negb (target r) || fk (set r)) rows)
  then Error NotFound
  else Data ((λ r, if target r then set r else r) <$> rows).

(** [DELETE FROM t WHERE cond] *)
Definition delete_target (pols : list (policy Row))
    (p : Principal) (db : DB) (cond : Row → bool) (r : Row) : bool :=
  cond r && rls_using pols SELECT p db r && rls_using pols DELETE p db r.

Definition rls_delete (pols : list (policy Row))
    (p : Principal) (db : DB) (cond : Row → bool) (rows : list Row)
    : list Row :=
  filter (λ r, delete_target pols p db cond r = false) rows.
End rls.

(** ** public.courses *)

(** Modelled from the spec: the policies of [public.courses] belong to an
    earlier migration that is not among the sources.  The spec makes reading
    the course catalogue unrestricted for authenticated principals. *)
Definition select_courses (p : Principal) (db : DB) : list Course.t :=
  courses db.

(** [SELECT id FROM public.courses WHERE created_by = auth.uid()] *)
Definition courses_created_by_me (p : Principal) (db : DB) : list uuid :=
  Course.id <$>
    filter (λ c, Course.created_by c = auth_uid p) (select_courses p db).

(** ** public.enrollments *)

Definition enrollments_policies : list (policy Enrollment.t) := [
  POLICY "Students can view their own enrollments" (FOR SELECT)
    (Some (λ p db e, bool_decide (auth_uid p = Enrollment.student_id e)))
    None;
  POLICY "Students can enroll in courses" (FOR INSERT)
    None
    (Some (λ p db e, bool_decide (auth_uid p = Enrollment.student_id e)
                     && has_role p student));
  POLICY "Lecturers can view enrollments for their courses" (FOR SELECT)
    (Some (λ p db e, has_role p lecturer
                     && bool_decide (Enrollment.course_id e
                                     ∈ courses_created_by_me p db)))
    None;
  POLICY "Admins can manage all enrollments" FOR_ALL
    (Some (λ p db e, has_role p admin))
    None
].

Definition select_enrollments (p : Principal) (db : DB) : list Enrollment.t :=
  filter (λ e, rls_using enrollments_policies SELECT p db e) (enrollments db).

(** ** public.assignments *)

(** [SELECT course_id FROM public.enrollments WHERE student_id = auth.uid()];
    the sub-query runs as the session principal, under the policies of
    [enrollments]. *)
Definition my_enrolled_courses (p : Principal) (db : DB) : list uuid :=
  Enrollment.course_id <$>
    filter (λ e, Enrollment.student_id e = auth_uid p) (select_enrollments p db).

Definition assignments_policies : list (policy Assignment.t) := [
  POLICY "Students can view assignments for enrolled courses" (FOR SELECT)
    (Some (λ p db a, bool_decide (Assignment.course_id a
                                  ∈ my_enrolled_courses p db)))
    None;
  POLICY "Lecturers can manage their course assignments" FOR_ALL
    (Some (λ p db a, has_role p lecturer
                     && bool_decide (Assignment.course_id a
                                     ∈ courses_created_by_me p db)))
    None;
  POLICY "Admins can manage all assignments" FOR_ALL
    (Some (λ p db a, has_role p admin))
    None
].

Definition select_assignments (p : Principal) (db : DB) : list Assignment.t :=
  filter (λ a, rls_using assignments_policies SELECT p db a) (assignments db).

(** [p] may read the assignment [a] of [db]. *)
Definition can_read_assignment (p : Principal) (db : DB) (a : Assignment.t)
    : Prop :=
  a ∈ select_assignments p db.

#[global] Instance can_read_assignment_dec p db a :
  Decision (can_read_assignment p db a).
Proof. unfold can_read_assignment. apply _. Defined.

(** [supabase.from("assignments").select("*").eq("course_id", courseId)]:
    the rows of the course that the policies let through; a row that fails
    them is left out and no error is raised. *)
Definition read_course_assignments (p : Principal) (db : DB) (courseId : uuid)
    : response (list Assignment.t) :=
  Data (filter (λ a, Assignment.course_id a = courseId)
               (select_assignments p db)).

(** ** Enrollment facts the claims speak about *)

Definition has_enrollment (sid cid : uuid) (db : DB) : Prop :=
  Exists (λ e, Enrollment.student_id e = sid ∧ Enrollment.course_id e = cid)
         (enrollments db).

Definition has_active_enrollment (sid cid : uuid) (db : DB) : Prop :=
  Exists (λ e, Enrollment.student_id e = sid ∧ Enrollment.course_id e = cid
               ∧ Enrollment.status e = "active")
         (enrollments db).

#[global] Instance has_enrollment_dec sid cid db :
  Decision (has_enrollment sid cid db).
Proof. unfold has_enrollment. apply _. Defined.

#[global] Instance has_active_enrollment_dec sid cid db :
  Decision (has_active_enrollment sid cid db).
Proof. unfold has_active_enrollment. apply _. Defined.


(** ** Writing to public.enrollments *)

Definition enrollment_key (e : Enrollment.t) : uuid * uuid :=
  (Enrollment.student_id e, Enrollment.course_id e).

(** [INSERT INTO public.enrollments]: the row-level check on the new row,
    then the primary key and [UNIQUE(student_id, course_id)], then the two
    foreign keys. *)
Definition insert_enrollment (p : Principal) (db : DB) (e : Enrollment.t)
    : response DB :=
  if negb (rls_with_check enrollments_policies INSERT p db e) then
    Error Forbidden
  else if bool_decide (Enrollment.id e ∈ Enrollment.id <$> enrollments db) then
    Error Conflict
  else if bool_decide (enrollment_key e ∈ enrollment_key <$> enrollments db) then
    Error Conflict
  else if negb (bool_decide (Enrollment.student_id e ∈ users db)) then
    Error NotFound
  else if negb (bool_decide (Enrollment.course_id e
                             ∈ Course.id <$> courses db)) then
    Error NotFound
  else
    Data (with_enrollments db (enrollments db ++ [e])).

(** [UPDATE public.enrollments SET status = st WHERE id = eid] *)
Definition set_status (st : string) (e : Enrollment.t) : Enrollment.t :=
  {| Enrollment.id := Enrollment.id e;
     Enrollment.student_id := Enrollment.student_id e;
     Enrollment.course_id := Enrollment.course_id e;
     Enrollment.enrolled_at := Enrollment.enrolled_at e;
     Enrollment.status := st |}.

Definition update_enrollment_status (p : Principal) (db : DB)
    (eid : uuid) (st : string) : response DB :=
  match rls_update enrollments_policies p db
          (λ e, bool_decide (Enrollment.id e = eid)) (set_status st)
          (λ _, true) (enrollments db) with
  | Data rows => Data (with_enrollments db rows)
  | Error e => Error e
  end.

(** [DELETE FROM public.enrollments WHERE student_id = sid AND course_id = cid] *)
Definition delete_enrollment (p : Principal) (db : DB) (sid cid : uuid)
    : response DB :=
  Data (with_enrollments db
          (rls_delete enrollments_policies p db
             (λ e, bool_decide (enrollment_key e = (sid, cid)))
             (enrollments db))).

(** The statements that change [enrollments]; a statement on another table
    leaves its rows as they are or, through [ON DELETE CASCADE] from
    [courses] and [auth.users], removes some of them. *)
Inductive enrollment_step : DB → DB → Prop :=
  | step_insert p db e db' :
      insert_enrollment p db e = Data db' → enrollment_step db db'
  | step_update_status p db eid st db' :
      update_enrollment_status p db eid st = Data db' →
      enrollment_step db db'
  | step_delete p db sid cid db' :
      delete_enrollment p db sid cid = Data db' → enrollment_step db db'
  | step_elsewhere db db' :
      enrollments db' `sublist_of` enrollments db → enrollment_step db db'.

(** The states of [enrollments] from the empty table the migration creates. *)
Inductive enrollments_reachable : DB → Prop :=
  | reach_created db : enrollments db = [] → enrollments_reachable db
  | reach_step db db' :
      enrollments_reachable db → enrollment_step db db' →
      enrollments_reachable db'.

(** [UNIQUE(student_id, course_id)] as a property of a state. *)
Definition unique_enrollments (db : DB) : Prop :=
  NoDup (enrollment_key <$> enrollments db).

(** ** public.submissions *)

(** [SELECT a.id FROM public.assignments a
     JOIN public.courses c ON a.course_id = c.id
     WHERE c.created_by = auth.uid()] *)
Definition assignments_of_my_courses (p : Principal) (db : DB) : list uuid :=
  a ← select_assignments p db;
  c ← select_courses p db;
  if bool_decide (Assignment.course_id a = Course.id c)
     && bool_decide (Course.created_by c = auth_uid p)
  then [Assignment.id a] else [].

Definition submissions_policies : list (policy Submission.t) := [
  POLICY "Students can view their own submissions" (FOR SELECT)
    (Some (λ p db s, bool_decide (auth_uid p = Submission.student_id s)))
    None;
  POLICY "Students can create their own submissions" (FOR INSERT)
    None
    (Some (λ p db s, bool_decide (auth_uid p = Submission.student_id s)
                     && has_role p student));
  POLICY "Students can update their own ungraded submissions" (FOR UPDATE)
    (Some (λ p db s, bool_decide (auth_uid p = Submission.student_id s)
                     && bool_decide (Submission.grade s = None)))
    None;
  POLICY "Lecturers can view submissions for their assignments" (FOR SELECT)
    (Some (λ p db s, has_role p lecturer
                     && bool_decide (Submission.assignment_id s
                                     ∈ assignments_of_my_courses p db)))
    None;
  POLICY "Lecturers can grade submissions for their assignments" (FOR UPDATE)
    (Some (λ p db s, has_role p lecturer
                     && bool_decide (Submission.assignment_id s
                                     ∈ assignments_of_my_courses p db)))
    None;
  POLICY "Admins can manage all submissions" FOR_ALL
    (Some (λ p db s, has_role p admin))
    None
].

Definition select_submissions (p : Principal) (db : DB) : list Submission.t :=
  filter (λ s, rls_using submissions_policies SELECT p db s) (submissions db).

Definition submission_key (s : Submission.t) : uuid * uuid :=
  (Submission.assignment_id s, Submission.student_id s).

(** [graded_by UUID REFERENCES auth.users(id)], a nullable reference. *)
Definition graded_by_exists (db : DB) (s : Submission.t) : bool :=
  match Submission.graded_by s with
  | None => true
  | Some u => bool_decide (u ∈ users db)
  end.

(** [INSERT INTO public.submissions] *)
Definition insert_submission (p : Principal) (db : DB) (s : Submission.t)
    : response DB :=
  if negb (rls_with_check submissions_policies INSERT p db s) then
    Error Forbidden
  else if bool_decide (Submission.id s ∈ Submission.id <$> submissions db) then
    Error Conflict
  else if bool_decide (submission_key s ∈ submission_key <$> submissions db) then
    Error Conflict
  else if negb (bool_decide (Submission.assignment_id s
                             ∈ Assignment.id <$> assignments db)) then
    Error NotFound
  else if negb (bool_decide (Submission.student_id s ∈ users db)) then
    Error NotFound
  else if negb (graded_by_exists db s) then
    Error NotFound
  else
    Data (with_submissions db (submissions db ++ [s])).

(** The object handed to [.update({...})]: a key that is absent leaves the
    column as it is.  No client of the repository updates [id],
    [assignment_id], [student_id] or [submitted_at]. *)
Module SubmissionPatch.
Record t := {
  content : option string;
  file_url : option (option string);
  grade : option (option Z);
  feedback : option (option string);
  graded_at : option (option timestamptz);
  graded_by : option (option uuid)
}.

Definition apply (u : t) (s : Submission.t) : Submission.t :=
  {| Submission.id := Submission.id s;
     Submission.assignment_id := Submission.assignment_id s;
     Submission.student_id := Submission.student_id s;
     Submission.content := default (Submission.content s) (content u);
     Submission.file_url := default (Submission.file_url s) (file_url u);
     Submission.submitted_at := Submission.submitted_at s;
     Submission.grade := default (Submission.grade s) (grade u);
     Submission.feedback := default (Submission.feedback s) (feedback u);
     Submission.graded_at := default (Submission.graded_at s) (graded_at u);
     Submission.graded_by := default (Submission.graded_by s) (graded_by u) |}.
End SubmissionPatch.

(** [supabase.from("submissions").update(u).eq("id", submissionId)] *)
Definition update_submission (p : Principal) (db : DB)
    (submissionId : uuid) (u : SubmissionPatch.t) : response DB :=
  match rls_update submissions_policies p db
          (λ s, bool_decide (Submission.id s = submissionId))
          (SubmissionPatch.apply u) (graded_by_exists db)
          (submissions db) with
  | Error e => Error e
  | Data rows => Data (with_submissions db rows)
  end.

(** A student edits the text of a submission: [.update({ content })]. *)
Definition content_update (c : string) : SubmissionPatch.t :=
  {| SubmissionPatch.content := Some c;
     SubmissionPatch.file_url := None;
     SubmissionPatch.grade := None;
     SubmissionPatch.feedback := None;
     SubmissionPatch.graded_at := None;
     SubmissionPatch.graded_by := None |}.

(** The grading update of [LecturerSubmissionsPage]:
    [.update({ grade: gradeValue, feedback: feedback, graded_by: user.id,
               graded_at: new Date().toISOString() })] *)
Definition grading_update (gradeValue : Z) (feedback : string)
    (user : Principal) (now : timestamptz) : SubmissionPatch.t :=
  {| SubmissionPatch.content := None;
     SubmissionPatch.file_url := None;
     SubmissionPatch.grade := Some (Some gradeValue);
     SubmissionPatch.feedback := Some (Some feedback);
     SubmissionPatch.graded_at := Some (Some now);
     SubmissionPatch.graded_by := Some (Some (pid user)) |}.

Definition grade_submission (user : Principal) (db : DB)
    (submissionId : uuid) (gradeValue : Z) (feedback : string)
    (now : timestamptz) : response DB :=
  update_submission user db submissionId
    (grading_update gradeValue feedback user now).

(** ** public.notifications *)

Definition notifications_policies : list (policy Notification.t) := [
  POLICY "Users can view their own notifications" (FOR SELECT)
    (Some (λ p db n, bool_decide (auth_uid p = Notification.user_id n)))
    None;
  POLICY "Users can update their own notifications" (FOR UPDATE)
    (Some (λ p db n, bool_decide (auth_uid p = Notification.user_id n)))
    None
].

Definition select_notifications (p : Principal) (db : DB)
    : list Notification.t :=
  filter (λ n, rls_using notifications_policies SELECT p db n)
         (notifications db).

(** [INSERT INTO public.notifications] by a session principal. *)
Definition insert_notification (p : Principal) (db : DB) (n : Notification.t)
    : response DB :=
  if negb (rls_with_check notifications_policies INSERT p db n) then
    Error Forbidden
  else if bool_decide (Notification.id n
                       ∈ Notification.id <$> notifications db) then
    Error Conflict
  else if negb (bool_decide (Notification.user_id n ∈ users db)) then
    Error NotFound
  else
    Data (with_notifications db (notifications db ++ [n])).

(** The object handed to [.update({...})] on [notifications]. *)
Module NotificationPatch.
Record t := {
  user_id : option uuid;
  type : option string;
  title : option string;
  message : option string;
  read : option bool;
  created_at : option timestamptz
}.

Definition apply (u : t) (n : Notification.t) : Notification.t :=
  {| Notification.id := Notification.id n;
     Notification.user_id := default (Notification.user_id n) (user_id u);
     Notification.type := default (Notification.type n) (type u);
     Notification.title := default (Notification.title n) (title u);
     Notification.message := default (Notification.message n) (message u);
     Notification.read := default (Notification.read n) (read u);
     Notification.created_at :=
       default (Notification.created_at n) (created_at u) |}.
End NotificationPatch.

(** [supabase.from("notifications").update(u).eq("id", notificationId)] *)
Definition update_notification (p : Principal) (db : DB)
    (notificationId : uuid) (u : NotificationPatch.t) : response DB :=
  match rls_update notifications_policies p db
          (λ n, bool_decide (Notification.id n = notificationId))
          (NotificationPatch.apply u)
          (λ n, bool_decide (Notification.user_id n ∈ users db))
          (notifications db) with
  | Error e => Error e
  | Data rows => Data (with_notifications db rows)
  end.

(** [supabase.from("notifications").delete().eq("id", notificationId)] *)
Definition delete_notification (p : Principal) (db : DB)
    (notificationId : uuid) : response DB :=
  Data (with_notifications db
          (rls_delete notifications_policies p db
             (λ n, bool_decide (Notification.id n = notificationId))
             (notifications db))).


(** * Clients *)

(** What a [catch (error)] block receives. *)
Inductive exn :=
  | StoreFault (e : store_error)   (* [if (error) throw error] *)
  | TypeError.                     (* a property read on [null] *)

(** [toast({ title })] and
    [toast({ title, description: error.message, variant: "destructive" })] *)
Inductive toast :=
  | Toast (title : string)
  | DestructiveToast (title : string) (description : exn).

(** ** StudentDashboard.handleEnroll

    The insert names [student_id] and [course_id]; [id], [enrolled_at] and
    [status] take their column defaults [gen_random_uuid()], [now()] and
    ['active'], which the caller of the model supplies as [new_id] and
    [now].  The result is the database after the call and the toast shown. *)
Definition handleEnroll (user : option Principal) (new_id : uuid)
    (now : timestamptz) (db : DB) (courseId : uuid) : DB * option toast :=
  match user with
  | None => (db, None)
  | Some user =>
      match insert_enrollment user db
              {| Enrollment.id := new_id;
                 Enrollment.student_id := pid user;
                 Enrollment.course_id := courseId;
                 Enrollment.enrolled_at := now;
                 Enrollment.status := "active" |} with
      | Error error => (db, Some (DestructiveToast "Error" (StoreFault error)))
      | Data db' => (db', Some (Toast "Successfully enrolled in course!"))
      end
  end.

(** ** AnalyticsPage.fetchAnalytics *)

Record CourseProgress := {
  course_title : string;
  total_assignments : nat;
  submitted_assignments : nat;
  average_grade : option Qc
}.

(** [grades.length > 0
       ? grades.reduce((a, b) => a + b, 0) / grades.length : null].
    Grades are [INTEGER] columns, so the sum is exact; the quotient of the
    two numbers is kept as the rational it denotes. *)
Definition avgGrade (grades : list Z) : option Qc :=
  if bool_decide (0 < length grades)
  then Some (Qc_of_Z (foldl Z.add 0%Z grades) / Qc_of_Z (Z.of_nat (length grades)))%Qc
  else None.

(** [.from("enrollments").select("course_id, courses(title)")
     .eq("student_id", user.id)]: each row carries the embedded course, or
    [null] when no course row is visible for it. *)
Definition enrollments_with_course (user : Principal) (db : DB)
    : list (uuid * option Course.t) :=
  (λ e, (Enrollment.course_id e,
         head (filter (λ c, Course.id c = Enrollment.course_id e)
                      (select_courses user db))))
  <$> filter (λ e, Enrollment.student_id e = pid user)
             (select_enrollments user db).

(** [.from("assignments").select("id").eq("course_id", courseId)] *)
Definition course_assignment_ids (user : Principal) (db : DB)
    (courseId : uuid) : list uuid :=
  Assignment.id <$>
    filter (λ a, Assignment.course_id a = courseId)
           (select_assignments user db).

(** [.from("submissions").select("grade, assignment_id")
     .eq("student_id", user.id).in("assignment_id", ids)] *)
Definition course_submissions (user : Principal) (db : DB)
    (courseId : uuid) : list Submission.t :=
  filter (λ s, Submission.student_id s = pid user
               ∧ Submission.assignment_id s
                 ∈ course_assignment_ids user db courseId)
         (select_submissions user db).

(** The body of the loop over the enrollments. *)
Definition course_progress (user : Principal) (db : DB)
    (enrollment : uuid * option Course.t) : option CourseProgress :=
  let courseId := enrollment.1 in
  courses ← enrollment.2;
  let courseTitle := Course.title courses in
  let totalAssignments :=
    length (filter (λ a, Assignment.course_id a = courseId)
                   (select_assignments user db)) in
  let submissions := course_submissions user db courseId in
  let submittedCount := length submissions in
  let grades := omap Submission.grade submissions in
  Some {| course_title := courseTitle;
          total_assignments := totalAssignments;
          submitted_assignments := submittedCount;
          average_grade := avgGrade grades |}.

Inductive fetched :=
  | NotSignedIn                                  (* [if (!user) return] *)
  | SetProgress (progress : list CourseProgress) (* [setProgress(...)] *)
  | Caught (t : toast).                          (* the [catch] block *)

Definition fetchAnalytics (user : option Principal) (db : DB) : fetched :=
  match user with
  | None => NotSignedIn
  | Some user =>
      match mapM (course_progress user db)
                 (enrollments_with_course user db) with
      | Some courseProgress => SetProgress courseProgress
      | None => Caught (DestructiveToast "Error" TypeError)
      end
  end.

(** *** What the progress view is said to show

    These follow the wording of the claim, over the tables themselves. *)


(** The non-null grades of a list of submissions. *)
Definition non_null_grades (l : list Submission.t) : list Z :=
  omap Submission.grade l.


(** [FOREIGN KEY (course_id) REFERENCES public.courses(id)] on enrollments. *)
Definition enrollments_reference_courses (db : DB) : Prop :=
  Forall (λ e, Enrollment.course_id e ∈ Course.id <$> courses db)
         (enrollments db).


(** * Parts of the repository that are not among the sources *)

(** ** Course policy *)

Module CoursePolicy.
(** Modelled from the spec: the policies of [public.courses] are declared
    by an earlier migration that is not among the sources.  The spec's
    Policy Engine states them per role: "admin — all actions.  Lecturer —
    create always allowed; update/delete only if principal_id ==
    created_by.  Student — read-only". *)
Definition canUpdate (p : Principal) (c : Course.t) : bool :=
  match role p with
  | admin => true
  | lecturer => bool_decide (pid p = Course.created_by c)
  | student => false
  end.
End CoursePolicy.

(** ** Notification fan-out *)

Module FanOut.
Inductive mutation :=
  | AssignmentCreated (a : Assignment.t)
  | SubmissionCreated (s : Submission.t)
  | SubmissionGraded (s : Submission.t).

(** Modelled from the spec: the edge functions that write notifications
    ([assignment-service], [submission-service], [grading-service],
    [send-notification]) are not among the sources.  The spec derives the
    recipients of a mutation as: assignment created, all principals with
    an active enrollment in that course; submission created, the lecturer
    owning the assignment's course; submission graded, the submitting
    student. *)
Definition derived_recipients (db : DB) (m : mutation) : list uuid :=
  match m with
  | AssignmentCreated a =>
      Enrollment.student_id <$>
        filter (λ e, Enrollment.course_id e = Assignment.course_id a
                     ∧ Enrollment.status e = "active")
               (enrollments db)
  | SubmissionCreated s =>
      a ← filter (λ a, Assignment.id a = Submission.assignment_id s)
                 (assignments db);
      c ← filter (λ c, Course.id c = Assignment.course_id a) (courses db);
      [Course.created_by c]
  | SubmissionGraded s => [Submission.student_id s]
  end.

(** Modelled from the spec: "recipients are deduplicated before
    insertion". *)
Definition recipients (db : DB) (m : mutation) : list uuid :=
  remove_dups (derived_recipients db m).

(** The text of a notification is not part of the derivation; it is taken
    from the caller, together with the generator of row ids. *)
Record envelope := {
  new_id : uuid → uuid;
  type : string;
  title : string;
  message : string;
  now : timestamptz
}.

Definition notification_for (env : envelope) (u : uuid) : Notification.t :=
  {| Notification.id := new_id env u;
     Notification.user_id := u;
     Notification.type := type env;
     Notification.title := title env;
     Notification.message := message env;
     Notification.read := false;
     Notification.created_at := now env |}.

(** Modelled from the spec: "for each recipient, insert exactly one
    Notification row". *)
Definition inserted (env : envelope) (db : DB) (m : mutation)
    : list Notification.t :=
  notification_for env <$> recipients db m.

Definition fan_out (env : envelope) (db : DB) (m : mutation) : DB :=
  with_notifications db (notifications db ++ inserted env db m).

(** The notifications of one fan-out addressed to [u]. *)
Definition delivered_to (u : uuid) (env : envelope) (db : DB) (m : mutation)
    : list Notification.t :=
  filter (λ n, Notification.user_id n = u) (inserted env db m).
End FanOut.


(** ** A small campus used by the examples

    Lecturer [L] owns course CS101 with assignment HW1; [L2] is another
    lecturer; [S] and [S2] are students; [Adm] is an administrator. *)

Module Campus.
Definition L : Principal := {| pid := 1; role := lecturer |}.
Definition L2 : Principal := {| pid := 2; role := lecturer |}.
Definition S : Principal := {| pid := 3; role := student |}.
Definition S2 : Principal := {| pid := 4; role := student |}.
Definition Adm : Principal := {| pid := 5; role := admin |}.

Definition CS101 : Course.t :=
  {| Course.id := 10; Course.title := "CS101"; Course.description := None;
     Course.created_by := 1; Course.lecturer_id := Some 1%N |}.

Definition HW1 : Assignment.t :=
  {| Assignment.id := 20; Assignment.course_id := 10;
     Assignment.title := "HW1"; Assignment.description := None;
     Assignment.due_date := 7; Assignment.max_grade := 100;
     Assignment.created_by := 1; Assignment.created_at := 0;
     Assignment.updated_at := 0 |}.

Definition enrollment_of_S (st : string) : Enrollment.t :=
  {| Enrollment.id := 30; Enrollment.student_id := 3;
     Enrollment.course_id := 10; Enrollment.enrolled_at := 1;
     Enrollment.status := st |}.

Definition everyone : list uuid := [1; 2; 3; 4; 5]%N.

(** CS101 with HW1 posted and nobody enrolled. *)
Definition db_posted : DB :=
  {| users := everyone; courses := [CS101]; enrollments := [];
     assignments := [HW1]; submissions := []; notifications := [] |}.

(** CS101 with HW1 posted and [S] enrolled with the given status. *)
Definition db_enrolled (st : string) : DB :=
  {| users := everyone; courses := [CS101];
     enrollments := [enrollment_of_S st];
     assignments := [HW1]; submissions := []; notifications := [] |}.

(** CS101 with [S] enrolled and no assignment posted yet. *)
Definition db_no_homework : DB :=
  {| users := everyone; courses := [CS101];
     enrollments := [enrollment_of_S "active"];
     assignments := []; submissions := []; notifications := [] |}.

(** The answer of [S] to HW1, ungraded or graded 85 by [L]. *)
Definition answer_of_S (g : option Z) : Submission.t :=
  {| Submission.id := 40; Submission.assignment_id := 20;
     Submission.student_id := 3; Submission.content := "answer";
     Submission.file_url := None; Submission.submitted_at := 2;
     Submission.grade := g;
     Submission.feedback := if g is Some _ then Some "Good job" else None;
     Submission.graded_at := if g is Some _ then Some 3%Z else None;
     Submission.graded_by := if g is Some _ then Some 1%N else None |}.

(** [S] is enrolled and has answered HW1. *)
Definition db_answered (g : option Z) : DB :=
  {| users := everyone; courses := [CS101];
     enrollments := [enrollment_of_S "active"];
     assignments := [HW1]; submissions := [answer_of_S g];
     notifications := [] |}.

Definition graded_notice : Notification.t :=
  {| Notification.id := 50; Notification.user_id := 3;
     Notification.type := "graded"; Notification.title := "Graded";
     Notification.message := "HW1 has been graded";
     Notification.read := false; Notification.created_at := 3 |}.

(** As [db_answered (Some 85)], with the notification sent to [S]. *)
Definition db_notified : DB :=
  with_notifications (db_answered (Some 85%Z)) [graded_notice].
End Campus.


(** * Statements about the store *)

(** The number of enrollment rows of a (student_id, course_id) pair. *)
Definition enrollment_count (k : uuid * uuid) (db : DB) : nat :=
  length (filter (λ e, enrollment_key e = k) (enrollments db)).

(** [PRIMARY KEY (id)] of [submissions], as a property of a state. *)
Definition submissions_pkey (db : DB) : Prop :=
  NoDup (Submission.id <$> submissions db).

#[global] Instance submissions_pkey_dec db : Decision (submissions_pkey db).
Proof. unfold submissions_pkey. apply _. Defined.

(** The course of the submission's assignment was created by [p]. *)
Definition owns_course_of (p : Principal) (db : DB) (s : Submission.t)
    : Prop :=
  Exists (λ a, Assignment.id a = Submission.assignment_id s
               ∧ Exists (λ c, Course.id c = Assignment.course_id a
                              ∧ Course.created_by c = pid p)
                        (courses db))
         (assignments db).

#[global] Instance owns_course_of_dec p db s : Decision (owns_course_of p db s).
Proof. unfold owns_course_of. apply _. Defined.

(** Who the policies let update a graded submission. *)
Definition may_regrade (p : Principal) (db : DB) (s : Submission.t) : Prop :=
  role p = admin ∨ (role p = lecturer ∧ owns_course_of p db s).

#[global] Instance may_regrade_dec p db s : Decision (may_regrade p db s).
Proof. unfold may_regrade. apply _. Defined.

(** The submissions after the rows with id [sid] took the update [u]. *)
Definition patched (db : DB) (sid : uuid) (u : SubmissionPatch.t) : DB :=
  with_submissions db
    ((λ r, if bool_decide (Submission.id r = sid)
           then SubmissionPatch.apply u r else r) <$> submissions db).

(** The three grading columns are all null or all set. *)
Definition graded_together (s : Submission.t) : Prop :=
  (Submission.grade s = None ∧ Submission.graded_at s = None
   ∧ Submission.graded_by s = None)
  ∨ (is_Some (Submission.grade s) ∧ is_Some (Submission.graded_at s)
     ∧ is_Some (Submission.graded_by s)).

#[global] Instance graded_together_dec s : Decision (graded_together s).
Proof. unfold graded_together. apply _. Defined.


(** The policies withhold every assignment of the course from [p]. *)
Definition read_refused (p : Principal) (db : DB) (cid : uuid) : Prop :=
  Forall (λ a, Assignment.course_id a = cid →
               rls_using assignments_policies SELECT p db a = false)
         (assignments db).


(** ** The claims that the store does not meet, as they are worded *)

(** C1 with its enrollment condition: a create that succeeds is for the
    session's own id, with an active enrollment in the course of the
    assignment, and is the first for its pair. *)
Definition create_needs_active_enrollment
    (p : Principal) (db : DB) (s : Submission.t) : Prop :=
  (∃ db', insert_submission p db s = Data db') →
  Submission.student_id s = pid p
  ∧ Exists (λ a, Assignment.id a = Submission.assignment_id s
                 ∧ has_active_enrollment (pid p) (Assignment.course_id a) db)
           (assignments db)
  ∧ (submission_key s ∉ submission_key <$> submissions db).

(** C2 with the word "active" kept. *)
Definition read_iff_active_enrollment
    (p : Principal) (db : DB) (a : Assignment.t) : Prop :=
  can_read_assignment p db a ↔
  has_active_enrollment (pid p) (Assignment.course_id a) db.


(** C5: a read that the policies refuse answers with a denial. *)
Definition refused_read_is_denied
    (p : Principal) (db : DB) (cid : uuid) : Prop :=
  read_refused p db cid →
  Exists (λ a, Assignment.course_id a = cid) (assignments db) →
  read_course_assignments p db cid = Error Forbidden.

(** C7, second part: an update by a session principal changes no column
    other than [read]. *)
Definition only_read_flag_changes (n n' : Notification.t) : Prop :=
  Notification.id n' = Notification.id n
  ∧ Notification.user_id n' = Notification.user_id n
  ∧ Notification.type n' = Notification.type n
  ∧ Notification.title n' = Notification.title n
  ∧ Notification.message n' = Notification.message n
  ∧ Notification.created_at n' = Notification.created_at n.

Definition update_touches_read_only
    (p : Principal) (db : DB) (nid : uuid) (u : NotificationPatch.t) : Prop :=
  ∀ db', update_notification p db nid u = Data db' →
  Forall2 only_read_flag_changes (notifications db) (notifications db').


(** * More of the store and of its clients *)

(** ** Writing to public.assignments *)

Definition with_assignments (db : DB) (rows : list Assignment.t) : DB :=
  {| users := users db; courses := courses db; enrollments := enrollments db;
     assignments := rows; submissions := submissions db;
     notifications := notifications db |}.

(** [INSERT INTO public.assignments]: the row-level check, the primary key,
    then the references to [courses] and [auth.users]. *)
Definition insert_assignment (p : Principal) (db : DB) (a : Assignment.t)
    : response DB :=
  if negb (rls_with_check assignments_policies INSERT p db a) then
    Error Forbidden
  else if bool_decide (Assignment.id a ∈ Assignment.id <$> assignments db) then
    Error Conflict
  else if negb (bool_decide (Assignment.course_id a
                             ∈ Course.id <$> courses db)) then
    Error NotFound
  else if negb (bool_decide (Assignment.created_by a ∈ users db)) then
    Error NotFound
  else
    Data (with_assignments db (assignments db ++ [a])).

(** [DELETE FROM public.assignments WHERE id = aid]; the submissions of a
    deleted assignment go with it
    ([assignment_id ... REFERENCES public.assignments(id) ON DELETE CASCADE]). *)
Definition delete_assignment (p : Principal) (db : DB) (aid : uuid)
    : response DB :=
  let cond := λ a, bool_decide (Assignment.id a = aid) in
  let deleted :=
    filter (λ a, delete_target assignments_policies p db cond a = true)
           (assignments db) in
  Data {| users := users db; courses := courses db;
          enrollments := enrollments db;
          assignments := rls_delete assignments_policies p db cond
                           (assignments db);
          submissions :=
            filter (λ s, Submission.assignment_id s
                         ∉ Assignment.id <$> deleted)
                   (submissions db);
          notifications := notifications db |}.

(** [assignment_id UUID NOT NULL REFERENCES public.assignments(id)], as a
    property of a state. *)
Definition submissions_reference_assignments (db : DB) : Prop :=
  Forall (λ s, Submission.assignment_id s ∈ Assignment.id <$> assignments db)
         (submissions db).

(** [UNIQUE(assignment_id, student_id)], as a property of a state. *)
Definition unique_submissions (db : DB) : Prop :=
  NoDup (submission_key <$> submissions db).

(** [PRIMARY KEY (id)] of [assignments] and of [courses]. *)
Definition assignments_pkey (db : DB) : Prop :=
  NoDup (Assignment.id <$> assignments db).

Definition courses_pkey (db : DB) : Prop :=
  NoDup (Course.id <$> courses db).

(** The number of submissions of an (assignment_id, student_id) pair. *)
Definition submission_count (k : uuid * uuid) (db : DB) : nat :=
  length (filter (λ s, submission_key s = k) (submissions db)).

(** The three constraints of [submissions] as one property of a state. *)
Definition submissions_consistent (db : DB) : Prop :=
  unique_submissions db ∧ submissions_pkey db
  ∧ submissions_reference_assignments db.

(** The statements that change [assignments] or [submissions]. *)
Inductive submission_step : DB → DB → Prop :=
  | sstep_submit p db s db' :
      insert_submission p db s = Data db' → submission_step db db'
  | sstep_update p db sid u db' :
      update_submission p db sid u = Data db' → submission_step db db'
  | sstep_post p db a db' :
      insert_assignment p db a = Data db' → submission_step db db'
  | sstep_unpost p db aid db' :
      delete_assignment p db aid = Data db' → submission_step db db'.

(** The states of [submissions] from the empty table the migration
    creates. *)
Inductive submissions_reachable : DB → Prop :=
  | sreach_created db : submissions db = [] → submissions_reachable db
  | sreach_step db db' :
      submissions_reachable db → submission_step db db' →
      submissions_reachable db'.

(** The course [cid] was created by [p]. *)
Definition created_course (p : Principal) (db : DB) (cid : uuid) : Prop :=
  Exists (λ c, Course.id c = cid ∧ Course.created_by c = pid p) (courses db).

#[global] Instance created_course_dec p db cid :
  Decision (created_course p db cid).
Proof. unfold created_course. apply _. Defined.

(** The update that sets [read] and leaves every other column. *)
Definition mark_read : NotificationPatch.t :=
  {| NotificationPatch.user_id := None;
     NotificationPatch.type := None;
     NotificationPatch.title := None;
     NotificationPatch.message := None;
     NotificationPatch.read := Some true;
     NotificationPatch.created_at := None |}.

(** ** StudentDashboard.fetchData

    The two lists the dashboard keeps: the enrollments of the user, each
    with its embedded course ([select("*, courses(*)")]), and the courses
    whose id is not among the enrolled ones
    ([.not("id", "in", `(${enrolledCourseIds.join(",")})`)]; with no
    enrollment the list is [()] and the filter keeps every course). *)
Record dashboard := {
  dash_enrollments : list (Enrollment.t * option Course.t);
  availableCourses : list Course.t
}.

Definition fetchData (user : option Principal) (db : DB) : option dashboard :=
  match user with
  | None => None
  | Some user =>
      let enrollData :=
        (λ e, (e, head (filter (λ c, Course.id c = Enrollment.course_id e)
                               (select_courses user db))))
        <$> filter (λ e, Enrollment.student_id e = pid user)
                   (select_enrollments user db) in
      let enrolledCourseIds := (λ e, Enrollment.course_id e.1) <$> enrollData in
      let coursesData :=
        filter (λ c, Course.id c ∉ enrolledCourseIds)
               (select_courses user db) in
      Some {| dash_enrollments := enrollData;
              availableCourses := coursesData |}
  end.

(** ** EnrollmentsPage.fetchEnrollments *)

(** [.single()]: the row when the query has exactly one, an error
    otherwise. *)
Definition single {A} (rows : list A) : option A :=
  match rows with
  | [x] => Some x
  | _ => None
  end.

Record Profile := { full_name : string; email : string }.

Module EnrolledStudent.
Record t := {
  id : uuid;
  enrolled_at : timestamptz;
  student_id : uuid;
  profiles : Profile
}.
End EnrolledStudent.

Inductive enrollments_fetched :=
  | NoCourseId                       (* [if (!courseId) return] *)
  | CourseError                      (* [if (courseError) throw courseError] *)
  | Listed (course_title : string) (enrollments : list EnrolledStudent.t).

(** [.order("enrolled_at", { ascending: false })] *)
Definition newest_first (e1 e2 : Enrollment.t) : Prop :=
  (Enrollment.enrolled_at e2 ≤ Enrollment.enrolled_at e1)%Z.

#[global] Instance newest_first_dec e1 e2 : Decision (newest_first e1 e2).
Proof. unfold newest_first. apply _. Defined.

Section EnrollmentsPage.
(** The table [profiles] belongs to an earlier migration that is not among
    the sources: [select_profile user id] stands for the [data] of
    [.from("profiles").select("full_name, email").eq("id", id).single()]
    in the session of [user]. *)
Variable select_profile : Principal → uuid → option Profile.

Definition with_profile (user : Principal) (enrollment : Enrollment.t)
    : EnrolledStudent.t :=
  {| EnrolledStudent.id := Enrollment.id enrollment;
     EnrolledStudent.enrolled_at := Enrollment.enrolled_at enrollment;
     EnrolledStudent.student_id := Enrollment.student_id enrollment;
     EnrolledStudent.profiles :=
       default {| full_name := "Unknown"; email := "Unknown" |}
               (select_profile user (Enrollment.student_id enrollment)) |}.

Definition fetchEnrollments (user : Principal) (courseId : option uuid)
    (db : DB) : enrollments_fetched :=
  match courseId with
  | None => NoCourseId
  | Some courseId =>
      match single (filter (λ c, Course.id c = courseId)
                           (select_courses user db)) with
      | None => CourseError
      | Some courseData =>
          let data :=
            merge_sort newest_first
              (filter (λ e, Enrollment.course_id e = courseId)
                      (select_enrollments user db)) in
          Listed (Course.title courseData) (with_profile user <$> data)
      end
  end.
End EnrollmentsPage.

(** ** AnalyticsPage: the completion rate of a course

    [course.total_assignments > 0
       ? (course.submitted_assignments / course.total_assignments) * 100 : 0],
    the quotient kept as the rational it denotes. *)
Definition completionRate (course : CourseProgress) : Qc :=
  if bool_decide (0 < total_assignments course)
  then (Qc_of_Z (Z.of_nat (submitted_assignments course))
        / Qc_of_Z (Z.of_nat (total_assignments course)) * Qc_of_Z 100)%Qc
  else 0%Qc.

(** ** StudentProgressPage.calculateAverageGrade *)

(** [Math.round]: the nearest integer, a half going up. *)
Definition Math_round (x : Qc) : Z := Qfloor (x + Q2Qc (QArith_base.Qmake 1 2))%Qc.

Definition calculateAverageGrade (submissions : list Submission.t)
    : option Z :=
  let gradedSubmissions :=
    filter (λ s, Submission.grade s ≠ None) submissions in
  if bool_decide (length gradedSubmissions = 0) then None
  else
    let total :=
      foldl (λ sum s, (sum + default 0 (Submission.grade s))%Z) 0%Z
            gradedSubmissions in
    Some (Math_round (Qc_of_Z total
                      / Qc_of_Z (Z.of_nat (length gradedSubmissions)))%Qc).

(** ** The end of the migration

    [UPDATE public.courses SET lecturer_id = created_by
     WHERE lecturer_id IS NULL], run by the migration itself, outside any
    session. *)
Definition backfill_lecturer_id (db : DB) : DB :=
  {| users := users db;
     courses :=
       (λ c, if Course.lecturer_id c is None
             then {| Course.id := Course.id c;
                     Course.title := Course.title c;
                     Course.description := Course.description c;
                     Course.created_by := Course.created_by c;
                     Course.lecturer_id := Some (Course.created_by c) |}
             else c) <$> courses db;
     enrollments := enrollments db; assignments := assignments db;
     submissions := submissions db; notifications := notifications db |}.


(** * Properties *)

(** ** Generic facts about permissive policies *)

Lemma rls_using_true {Row} (pols : list (policy Row)) c p db r :
  rls_using pols c p db r = true ↔
  ∃ pol, pol ∈ pols ∧ applies_to c pol = true ∧ using_expr pol p db r = true.
Proof.
  unfold rls_using. rewrite existsb_exists. split.
  - intros (pol & Hin & Hb). apply andb_true_iff in Hb as [? ?].
    exists pol. by rewrite list_elem_of_In.
  - intros (pol & Hin & Ha & Hu). exists pol.
    rewrite <- list_elem_of_In. by rewrite Ha, Hu.
Qed.

(** ** Enrollments seen by a session *)

Lemma own_enrollment_visible p db e :
  e ∈ enrollments db →
  Enrollment.student_id e = auth_uid p →
  e ∈ select_enrollments p db.
Proof.
  intros Hin Hown. unfold select_enrollments.
  apply list_elem_of_filter. split; [|done].
  apply Is_true_true, rls_using_true.
  eexists. split; [apply list_elem_of_here|].
  split; [done|]. simpl. by apply bool_decide_eq_true.
Qed.

Lemma my_enrolled_courses_spec p db cid :
  cid ∈ my_enrolled_courses p db ↔ has_enrollment (pid p) cid db.
Proof.
  unfold my_enrolled_courses, has_enrollment, auth_uid.
  rewrite list_elem_of_fmap, Exists_exists. split.
  - intros (e & -> & He). apply list_elem_of_filter in He as [Hsid He].
    apply list_elem_of_filter in He as [_ He]. by exists e.
  - intros (e & He & Hsid & Hcid). exists e. split; [done|].
    apply list_elem_of_filter. split; [done|].
    by apply own_enrollment_visible.
Qed.

(** ** Roles *)

Lemma has_role_student p :
  role p = student →
  has_role p student = true ∧ has_role p lecturer = false
  ∧ has_role p admin = false.
Proof. unfold has_role. by intros ->. Qed.

Lemma has_role_lecturer p :
  role p = lecturer →
  has_role p student = false ∧ has_role p lecturer = true
  ∧ has_role p admin = false.
Proof. unfold has_role. by intros ->. Qed.

Lemma has_role_admin p :
  role p = admin →
  has_role p student = false ∧ has_role p lecturer = false
  ∧ has_role p admin = true.
Proof. unfold has_role. by intros ->. Qed.

(** Unfold the disjunction of the applicable policies of a table and decide
    which policies apply to the command at hand. *)
Ltac rls_cmd :=
  repeat match goal with
  | |- context [@bool_decide (@eq command ?a ?b) ?d] =>
      let v := eval vm_compute in (@bool_decide (a = b) d) in
      change (@bool_decide (a = b) d) with v
  end.

Ltac rls_unfold :=
  unfold rls_using, rls_with_check;
  cbn [existsb applies_to using_expr with_check_expr
       pol_cmd pol_using pol_with_check];
  rls_cmd; cbn [andb orb].

(** Fix the role of the session in the goal. *)
Ltac as_role H :=
  let Hs := fresh "Hs" in let Hl := fresh "Hl" in let Ha := fresh "Ha" in
  first [ destruct (has_role_student _ H) as (Hs & Hl & Ha)
        | destruct (has_role_lecturer _ H) as (Hs & Hl & Ha)
        | destruct (has_role_admin _ H) as (Hs & Hl & Ha) ];
  rewrite ?Hs, ?Hl, ?Ha; cbn [andb orb].

(** ** Reading assignments *)

(** The assignment policies, for a session whose role is [student]. *)
Lemma student_assignment_select p db a :
  role p = student →
  rls_using assignments_policies SELECT p db a = true ↔
  has_enrollment (pid p) (Assignment.course_id a) db.
Proof.
  intros Hrole. rewrite <- my_enrolled_courses_spec.
  unfold assignments_policies. rls_unfold. as_role Hrole.
  rewrite !orb_false_r. apply bool_decide_eq_true.
Qed.

(** C2, as stated, fails: [S], whose only enrollment in CS101 has status
    "withdrawn", still reads HW1. *)
Lemma withdrawn_student_reads_assignment :
  role Campus.S = student ∧
  Campus.HW1 ∈ assignments (Campus.db_enrolled "withdrawn") ∧
  ¬ read_iff_active_enrollment
      Campus.S (Campus.db_enrolled "withdrawn") Campus.HW1.
Proof.
  split; [done|]. split; [compute_done|].
  intros [Hread _].
  assert (Hcan : can_read_assignment
                   Campus.S (Campus.db_enrolled "withdrawn") Campus.HW1)
    by compute_done.
  apply Hread in Hcan. revert Hcan. compute_done.
Qed.

(** C2 (amended): a student may read an assignment of the database exactly
    when an enrollment row of any status exists for the student and the
    assignment's course; the policy does not look at [status]. *)
Theorem student_reads_assignment_iff_enrolled p db a :
  role p = student →
  a ∈ assignments db →
  can_read_assignment p db a ↔
  has_enrollment (pid p) (Assignment.course_id a) db.
Proof.
  intros Hrole Ha. unfold can_read_assignment, select_assignments.
  rewrite list_elem_of_filter, Is_true_true, student_assignment_select by done.
  tauto.
Qed.

Lemma student_reads_assignment_iff_enrolled_witness :
  can_read_assignment Campus.S (Campus.db_enrolled "active") Campus.HW1 ↔
  has_enrollment (pid Campus.S) (Assignment.course_id Campus.HW1)
                 (Campus.db_enrolled "active").
Proof.
  apply (student_reads_assignment_iff_enrolled
           Campus.S (Campus.db_enrolled "active") Campus.HW1).
  - reflexivity.
  - vm_compute. apply list_elem_of_here.
Defined.

(** A student without an enrollment in the course is refused every
    assignment of the course. *)
Lemma unenrolled_student_refused p db cid :
  role p = student → ¬ has_enrollment (pid p) cid db →
  read_refused p db cid.
Proof.
  intros Hrole Hno. apply Forall_forall. intros a _ <-.
  apply not_true_is_false. by rewrite student_assignment_select.
Qed.

(** C5, as stated, fails: [S2], not enrolled in CS101, asks for the
    assignments of CS101 and is answered with no rows and no error, the very
    answer the enrolled [S] gets while CS101 has no assignment. *)
Lemma unenrolled_read_is_empty_not_denied :
  role Campus.S2 = student
  ∧ ¬ has_enrollment (pid Campus.S2) 10 Campus.db_posted
  ∧ ¬ refused_read_is_denied Campus.S2 Campus.db_posted 10
  ∧ read_course_assignments Campus.S2 Campus.db_posted 10 = Data []
  ∧ read_course_assignments Campus.S Campus.db_no_homework 10 = Data [].
Proof.
  split; [done|]. split; [compute_done|]. split; [|done].
  intros Hclaim.
  assert (Hr : read_refused Campus.S2 Campus.db_posted 10).
  { apply unenrolled_student_refused; [done | compute_done]. }
  specialize (Hclaim Hr). discriminate Hclaim. compute_done.
Qed.

(** C5 (amended): when the policies refuse a principal every assignment of
    a course, the read is answered with an empty list of rows and without an
    error: the rows are filtered out, no denial is reported. *)
Theorem refused_read_is_empty p db cid :
  read_refused p db cid →
  read_course_assignments p db cid = Data []
  ∧ error_of (read_course_assignments p db cid) = None.
Proof.
  intros Href. split; [|done].
  unfold read_course_assignments, select_assignments. f_equal.
  unfold read_refused in Href.
  induction (assignments db) as [|a l IH]; [done|].
  apply Forall_cons in Href as [Ha Hl].
  rewrite filter_cons. case_decide as Hpol.
  - rewrite filter_cons. case_decide as Hcid; [|by apply IH].
    apply Ha in Hcid. apply Is_true_true in Hpol. congruence.
  - by apply IH.
Qed.

Lemma refused_read_is_empty_witness :
  read_course_assignments Campus.S2 Campus.db_posted 10 = Data []
  ∧ error_of (read_course_assignments Campus.S2 Campus.db_posted 10) = None.
Proof.
  apply (refused_read_is_empty Campus.S2 Campus.db_posted 10).
  vm_compute. repeat constructor.
Defined.

(** ** Creating submissions *)

(** The INSERT check of [submissions], for a session whose role is
    [student]: only "Students can create their own submissions" can pass. *)
Lemma student_submission_insert_check p db s :
  role p = student →
  rls_with_check submissions_policies INSERT p db s
  = bool_decide (auth_uid p = Submission.student_id s).
Proof.
  intros Hrole. unfold submissions_policies. rls_unfold. as_role Hrole.
  by rewrite andb_true_r, orb_false_r.
Qed.

(** C1, as stated, fails: [S2] has no enrollment at all and creates a
    submission for HW1 of CS101. *)
Lemma unenrolled_student_creates_submission :
  let answer_of_S2 :=
    {| Submission.id := 41; Submission.assignment_id := 20;
       Submission.student_id := 4; Submission.content := "answer";
       Submission.file_url := None; Submission.submitted_at := 2;
       Submission.grade := None; Submission.feedback := None;
       Submission.graded_at := None; Submission.graded_by := None |} in
  role Campus.S2 = student
  ∧ enrollments Campus.db_posted = []
  ∧ insert_submission Campus.S2 Campus.db_posted answer_of_S2
    = Data (with_submissions Campus.db_posted [answer_of_S2])
  ∧ ¬ create_needs_active_enrollment Campus.S2 Campus.db_posted answer_of_S2.
Proof.
  intros s. split; [done|]. split; [done|]. split; [done|].
  intros Hclaim. destruct Hclaim as (_ & Hactive & _); [by eexists|].
  revert Hactive. compute_done.
Qed.

(** C1 (amended): for a principal acting as a student, a create with
    another student's id fails with [Forbidden], a second create for the
    same (assignment_id, student_id) pair fails with [Conflict], and a
    create succeeds exactly when it is for the student's own id, is the
    first for its pair, has a fresh id and refers to an existing assignment
    and existing users.  An enrollment is not asked for. *)
Theorem student_create_submission_rule p db s :
  role p = student →
  (Submission.student_id s ≠ pid p →
   insert_submission p db s = Error Forbidden)
  ∧ (Submission.student_id s = pid p →
     submission_key s ∈ (submission_key <$> submissions db) →
     insert_submission p db s = Error Conflict)
  ∧ ((∃ db', insert_submission p db s = Data db') ↔
     Submission.student_id s = pid p
     ∧ (submission_key s ∉ submission_key <$> submissions db)
     ∧ (Submission.id s ∉ Submission.id <$> submissions db)
     ∧ Submission.assignment_id s ∈ (Assignment.id <$> assignments db)
     ∧ Submission.student_id s ∈ users db
     ∧ graded_by_exists db s = true).
Proof.
  intros Hrole. unfold insert_submission.
  rewrite (student_submission_insert_check p db s Hrole). unfold auth_uid.
  split; [|split; [|split]].
  - intros Hne. rewrite bool_decide_eq_false_2; [done | congruence].
  - intros Heq Hkey. rewrite bool_decide_eq_true_2 by done. simpl.
    case_bool_decide; [done|]. by rewrite bool_decide_eq_true_2.
  - intros [db' Hins]. repeat case_bool_decide; simplify_eq/=; try done.
    destruct (graded_by_exists db s) eqn:?; by simplify_eq/=.
  - intros (Heq & Hkey & Hid & Hasg & Husr & Hby).
    rewrite bool_decide_eq_true_2 by done. simpl.
    rewrite (bool_decide_eq_false_2 _ Hid), (bool_decide_eq_false_2 _ Hkey).
    rewrite (bool_decide_eq_true_2 _ Hasg), (bool_decide_eq_true_2 _ Husr).
    rewrite Hby. simpl. by eexists.
Qed.

Lemma student_create_submission_rule_witness :
  ∃ db', insert_submission Campus.S (Campus.db_enrolled "active")
           (Campus.answer_of_S None) = Data db'.
Proof.
  destruct (student_create_submission_rule
              Campus.S (Campus.db_enrolled "active") (Campus.answer_of_S None))
    as (_ & _ & Hcreate); [reflexivity|].
  apply Hcreate. compute_done.
Defined.


(** ** Updates under row-level security *)

Section rls_update_facts.
Context {Row : Type}.
Implicit Types (pols : list (policy Row)) (rows : list Row).

(** What a successful update returns. *)
Lemma rls_update_Data pols p db cond set fk rows rows' :
  rls_update pols p db cond set fk rows = Data rows' →
  rows' = (λ r, if update_target pols p db cond r then set r else r)
          <$> rows.
Proof.
  unfold rls_update. repeat case_match; naive_solver.
Qed.

Lemma fmap_same_on (f g : Row → Row) rows :
  (∀ r, r ∈ rows → f r = g r) → f <$> rows = g <$> rows.
Proof.
  intros Hfg. apply list_fmap_ext. intros i r Hr.
  apply Hfg. by eapply list_elem_of_lookup_2.
Qed.

(** An update that no row is a target of changes nothing and raises
    nothing. *)
Lemma rls_update_no_target pols p db cond set fk rows :
  (∀ r, r ∈ rows → update_target pols p db cond r = false) →
  rls_update pols p db cond set fk rows = Data rows.
Proof.
  intros Hno. unfold rls_update.
  assert (Hall : ∀ q : Row → bool,
    forallb (λ r, negb (update_target pols p db cond r) || q r) rows = true).
  { intros q. apply forallb_forall. intros r Hr.
    apply list_elem_of_In in Hr. by rewrite (Hno r Hr). }
  rewrite !Hall. simpl. f_equal.
  rewrite <- (list_fmap_id rows) at 2. apply fmap_same_on.
  intros r Hr. by rewrite (Hno r Hr).
Qed.

(** A check that matters for one row only. *)
Lemma forallb_one `{EqDecision Row} (t q : Row → bool) rows s :
  s ∈ rows → (∀ r, r ∈ rows → t r = bool_decide (r = s)) →
  forallb (λ r, negb (t r) || q r) rows = q s.
Proof.
  intros Hs Ht. apply eq_iff_eq_true. rewrite forallb_forall. split.
  - intros Hall. specialize (Hall s). rewrite <- list_elem_of_In in Hall.
    specialize (Hall Hs). rewrite (Ht s Hs) in Hall.
    by rewrite bool_decide_eq_true_2 in Hall.
  - intros Hq r Hr. apply list_elem_of_In in Hr. rewrite (Ht r Hr).
    case_bool_decide; by subst.
Qed.

(** An update that has one row as its target. *)
Lemma rls_update_one `{EqDecision Row} pols p db cond set fk rows s :
  s ∈ rows →
  (∀ r, r ∈ rows → update_target pols p db cond r = bool_decide (r = s)) →
  update_check pols p db (set s) = true →
  rls_update pols p db cond set fk rows =
  if fk (set s)
  then Data ((λ r, if bool_decide (r = s) then set r else r) <$> rows)
  else Error NotFound.
Proof.
  intros Hs Ht Hcheck. unfold rls_update.
  rewrite (forallb_one _ (λ r, update_check pols p db (set r))
             rows s Hs Ht), Hcheck. simpl.
  rewrite (forallb_one _ (λ r, fk (set r)) rows s Hs Ht).
  destruct (fk (set s)); simpl; [|done]. f_equal.
  apply fmap_same_on. intros r Hr. by rewrite (Ht r Hr).
Qed.
End rls_update_facts.

Lemma with_submissions_same db : with_submissions db (submissions db) = db.
Proof. by destruct db. Qed.

Lemma with_enrollments_same db : with_enrollments db (enrollments db) = db.
Proof. by destruct db. Qed.

Lemma with_notifications_same db :
  with_notifications db (notifications db) = db.
Proof. by destruct db. Qed.

(** A key column identifies the row. *)
Lemma key_identifies {A K} (key : A → K) (l : list A) x y :
  NoDup (key <$> l) → x ∈ l → y ∈ l → key x = key y → x = y.
Proof.
  induction l as [|a l IH]; intros Hnd Hx Hy Hk; [by apply elem_of_nil in Hx|].
  rewrite fmap_cons in Hnd. apply NoDup_cons in Hnd as [Ha Hnd].
  apply elem_of_cons in Hx as [->|Hx]; apply elem_of_cons in Hy as [->|Hy].
  - done.
  - exfalso. apply Ha. rewrite Hk. by apply list_elem_of_fmap_2.
  - exfalso. apply Ha. rewrite <- Hk. by apply list_elem_of_fmap_2.
  - by apply IH.
Qed.


(** ** Updating submissions *)

(** The sub-query of the lecturer policies, for a session whose role is
    [lecturer]: the policies of [assignments] hide nothing that the lecturer
    owns. *)
Lemma lecturer_owned_assignments p db s :
  role p = lecturer →
  Submission.assignment_id s ∈ assignments_of_my_courses p db ↔
  owns_course_of p db s.
Proof.
  intros Hrole. unfold assignments_of_my_courses, owns_course_of, auth_uid.
  rewrite list_elem_of_bind, Exists_exists. split.
  - intros (a & Hin & Ha). exists a.
    apply list_elem_of_filter in Ha as [_ Ha]. split; [done|].
    apply list_elem_of_bind in Hin as (c & Hin & Hc).
    repeat case_bool_decide; simpl in Hin;
      try by apply elem_of_nil in Hin.
    apply list_elem_of_singleton in Hin. split; [done|].
    apply Exists_exists. by exists c.
  - intros (a & Ha & Hid & Hc). apply Exists_exists in Hc as (c & Hc & Hcid & Hby).
    exists a. split.
    + apply list_elem_of_bind. exists c. split; [|done].
      rewrite !bool_decide_eq_true_2 by done. simpl.
      by apply list_elem_of_singleton.
    + apply list_elem_of_filter. split; [|done].
      apply Is_true_true. unfold assignments_policies. rls_unfold.
      as_role Hrole. rewrite orb_false_r. apply orb_true_iff. right.
      apply bool_decide_eq_true. unfold courses_created_by_me.
      apply list_elem_of_fmap. exists c. split; [done|].
      by apply list_elem_of_filter.
Qed.








(** ** The grading columns *)










(** ** Enrolling *)

Lemma NoDup_fmap_filter {A K} (key : A → K) (P : A → Prop)
    `{∀ x, Decision (P x)} (l : list A) :
  NoDup (key <$> l) → NoDup (key <$> filter P l).
Proof.
  induction l as [|a l IH]; [done|]. rewrite fmap_cons, NoDup_cons.
  intros [Ha Hl]. rewrite filter_cons. case_decide; [|by apply IH].
  rewrite fmap_cons. apply NoDup_cons. split; [|by apply IH].
  intros Hin. apply Ha. apply list_elem_of_fmap in Hin as (x & -> & Hx).
  apply list_elem_of_filter in Hx as [_ Hx]. by apply list_elem_of_fmap_2.
Qed.

Lemma NoDup_key_count {A K} `{EqDecision K} (key : A → K) (l : list A) k :
  NoDup (key <$> l) → length (filter (λ x, key x = k) l) ≤ 1.
Proof.
  induction l as [|a l IH]; [simpl; lia|]. rewrite fmap_cons, NoDup_cons.
  intros [Ha Hl]. rewrite filter_cons. case_decide as Hk; [|by apply IH].
  assert (Hnone : filter (λ x, key x = k) l = []); [|by rewrite Hnone].
  apply elem_of_nil_inv.
  intros x Hx. apply list_elem_of_filter in Hx as [Hxk Hx].
  apply Ha. rewrite Hk, <- Hxk. by apply list_elem_of_fmap_2.
Qed.

Lemma fmap_key_preserved {A K} (key : A → K) (f : A → A) (l : list A) :
  (∀ x, key (f x) = key x) → key <$> (f <$> l) = key <$> l.
Proof.
  intros Hkey. induction l as [|a l IH]; [done|].
  rewrite !fmap_cons. by rewrite Hkey, IH.
Qed.

Lemma insert_enrollment_Data p db e db' :
  insert_enrollment p db e = Data db' →
  rls_with_check enrollments_policies INSERT p db e = true
  ∧ (enrollment_key e ∉ enrollment_key <$> enrollments db)
  ∧ db' = with_enrollments db (enrollments db ++ [e]).
Proof.
  unfold insert_enrollment. intros Hins.
  destruct (rls_with_check _ _ _ _ _); [|done]. simpl in Hins.
  repeat case_bool_decide; by simplify_eq/=.
Qed.

Lemma insert_enrollment_unique p db e db' :
  insert_enrollment p db e = Data db' →
  unique_enrollments db → unique_enrollments db'.
Proof.
  intros (_ & Hkey & ->)%insert_enrollment_Data Huniq.
  unfold unique_enrollments in *. simpl. rewrite fmap_app.
  apply NoDup_app. split; [done|]. split; [|apply NoDup_singleton].
  intros k Hk ->%list_elem_of_singleton. done.
Qed.

Lemma update_enrollment_status_unique p db eid st db' :
  update_enrollment_status p db eid st = Data db' →
  unique_enrollments db → unique_enrollments db'.
Proof.
  unfold update_enrollment_status. intros Hupd.
  destruct (rls_update _ _ _ _ _ _ _) as [rows|] eqn:Hrows; [|done].
  apply rls_update_Data in Hrows. simplify_eq/=.
  unfold unique_enrollments. cbn [enrollments with_enrollments]. intros Huniq.
  rewrite fmap_key_preserved; [done|].
  intros e. by destruct (update_target _ _ _ _ e).
Qed.

Lemma delete_enrollment_unique p db sid cid db' :
  delete_enrollment p db sid cid = Data db' →
  unique_enrollments db → unique_enrollments db'.
Proof.
  unfold delete_enrollment, rls_delete. intros [= <-].
  unfold unique_enrollments. simpl. apply NoDup_fmap_filter.
Qed.

Lemma enrollment_step_unique db db' :
  enrollment_step db db' → unique_enrollments db → unique_enrollments db'.
Proof.
  intros [p d e d' H | p d eid st d' H | p d sid cid d' H | d d' H].
  - by eapply insert_enrollment_unique.
  - by eapply update_enrollment_status_unique.
  - by eapply delete_enrollment_unique.
  - unfold unique_enrollments. intros Huniq.
    eapply sublist_NoDup; [exact Huniq|]. by apply fmap_sublist.
Qed.

(** [UNIQUE(student_id, course_id)] holds in every state of the table. *)
Lemma reachable_unique_enrollments db :
  enrollments_reachable db → unique_enrollments db.
Proof.
  induction 1 as [db Hnil | db db' _ IH Hstep].
  - unfold unique_enrollments. rewrite Hnil. constructor.
  - by eapply enrollment_step_unique.
Qed.

(** The INSERT check of [enrollments] reads the session and [student_id]
    only. *)
Lemma enrollment_insert_check p db e :
  rls_with_check enrollments_policies INSERT p db e
  = bool_decide (auth_uid p = Enrollment.student_id e) && has_role p student
    || has_role p admin.
Proof. unfold enrollments_policies. rls_unfold. by rewrite orb_false_r. Qed.

(** C4: in every state of [enrollments] there is at most one row for a
    (student_id, course_id) pair; and when a call of [handleEnroll] has
    enrolled a student in a course, a second call for the same course is
    answered with the destructive toast carrying [Conflict], leaves the
    database as it was and the pair with its single row. *)
Theorem second_enroll_is_conflict db :
  enrollments_reachable db →
  (∀ k, enrollment_count k db ≤ 1)
  ∧ ∀ u cid id1 t1 db1 id2 t2,
      handleEnroll (Some u) id1 t1 db cid
      = (db1, Some (Toast "Successfully enrolled in course!")) →
      handleEnroll (Some u) id2 t2 db1 cid
      = (db1, Some (DestructiveToast "Error" (StoreFault Conflict)))
      ∧ enrollment_count (pid u, cid) db1 = 1.
Proof.
  intros Hreach. split.
  { intros k. by apply NoDup_key_count, reachable_unique_enrollments. }
  intros u cid id1 t1 db1 id2 t2. unfold handleEnroll.
  set (e1 := {| Enrollment.id := id1 |}). set (e2 := {| Enrollment.id := id2 |}).
  destruct (insert_enrollment u db e1) as [d|] eqn:Hfirst; [|done].
  intros [= ->]. pose proof Hfirst as (Hchk & Hkey & ->)%insert_enrollment_Data.
  assert (Hin : enrollment_key e2
                ∈ enrollment_key <$> enrollments
                    (with_enrollments db (enrollments db ++ [e1]))).
  { simpl. rewrite fmap_app. apply elem_of_app. right.
    by apply list_elem_of_singleton. }
  split.
  - unfold insert_enrollment.
    rewrite enrollment_insert_check in *. simpl in *. rewrite Hchk. simpl.
    destruct (bool_decide (id2 ∈ _)); [done|].
    by rewrite (bool_decide_eq_true_2 _ Hin).
  - assert (Hr1 : enrollments_reachable
                    (with_enrollments db (enrollments db ++ [e1]))).
    { eapply reach_step; [exact Hreach|]. by eapply step_insert. }
    apply reachable_unique_enrollments, (NoDup_key_count _ _ (pid u, cid)) in Hr1.
    unfold enrollment_count. simpl in *.
    rewrite filter_app, length_app in *. simpl in *.
    rewrite filter_cons, decide_True in * by done. simpl in *. lia.
Qed.

Lemma second_enroll_is_conflict_witness :
  handleEnroll (Some Campus.S2) 32 6
    (handleEnroll (Some Campus.S2) 31 5 (Campus.db_enrolled "active") 10).1 10
  = ((handleEnroll (Some Campus.S2) 31 5 (Campus.db_enrolled "active") 10).1,
     Some (DestructiveToast "Error" (StoreFault Conflict)))
  ∧ enrollment_count (4%N, 10%N)
      (handleEnroll (Some Campus.S2) 31 5 (Campus.db_enrolled "active") 10).1
    = 1.
Proof.
  assert (Hreach : enrollments_reachable (Campus.db_enrolled "active")).
  { apply (reach_step Campus.db_posted).
    - by apply reach_created.
    - by apply (step_insert Campus.S _ (Campus.enrollment_of_S "active")). }
  destruct (second_enroll_is_conflict (Campus.db_enrolled "active") Hreach)
    as [_ Hsecond].
  apply (Hsecond Campus.S2 10%N 31%N 5%Z _ 32%N 6%Z). reflexivity.
Defined.


(** ** Notifications *)

Section rls_update_checks.
Context {Row : Type}.
Implicit Types (pols : list (policy Row)) (rows : list Row).

(** A successful update passed both checks on every row it changed. *)
Lemma rls_update_Data_checked pols p db cond set fk rows rows' r :
  rls_update pols p db cond set fk rows = Data rows' →
  r ∈ rows → update_target pols p db cond r = true →
  update_check pols p db (set r) = true ∧ fk (set r) = true.
Proof.
  unfold rls_update. intros Hupd Hr Ht.
  destruct (forallb _ rows) eqn:Hchk in Hupd; [|done].
  destruct (forallb _ rows) eqn:Hfk in Hupd; [|done].
  rewrite forallb_forall in Hchk, Hfk. apply list_elem_of_In in Hr.
  specialize (Hchk r Hr). specialize (Hfk r Hr).
  rewrite Ht in Hchk, Hfk. done.
Qed.

(** An update whose new rows pass both checks is applied. *)
Lemma rls_update_passes pols p db cond set fk rows :
  (∀ r, r ∈ rows → update_target pols p db cond r = true →
        update_check pols p db (set r) = true
        ∧ fk (set r) = true) →
  rls_update pols p db cond set fk rows
  = Data ((λ r, if update_target pols p db cond r then set r else r)
          <$> rows).
Proof.
  intros Hok. unfold rls_update.
  assert (Hchk : forallb (λ r, negb (update_target pols p db cond r)
                   || update_check pols p db (set r)) rows = true).
  { apply forallb_forall. intros r Hr%list_elem_of_In.
    destruct (update_target pols p db cond r) eqn:Ht; [|done].
    by destruct (Hok r Hr Ht) as [-> _]. }
  assert (Hfk : forallb (λ r, negb (update_target pols p db cond r)
                              || fk (set r)) rows = true).
  { apply forallb_forall. intros r Hr%list_elem_of_In.
    destruct (update_target pols p db cond r) eqn:Ht; [|done].
    by destruct (Hok r Hr Ht) as [_ ->]. }
  by rewrite Hchk, Hfk.
Qed.
End rls_update_checks.

Lemma notification_using p db n c :
  (c = SELECT ∨ c = UPDATE) →
  rls_using notifications_policies c p db n
  = bool_decide (pid p = Notification.user_id n).
Proof.
  unfold notifications_policies, auth_uid.
  intros [-> | ->]; rls_unfold; by rewrite ?orb_false_r.
Qed.

Lemma notification_update_check p db n :
  update_check notifications_policies p db n
  = bool_decide (pid p = Notification.user_id n).
Proof.
  unfold update_check. rewrite notification_using by auto.
  unfold notifications_policies, auth_uid. rls_unfold.
  rewrite orb_false_r. apply andb_diag.
Qed.

Lemma notification_target p db nid n :
  update_target notifications_policies p db
    (λ n, bool_decide (Notification.id n = nid)) n
  = bool_decide (Notification.id n = nid)
    && bool_decide (pid p = Notification.user_id n).
Proof.
  unfold update_target. rewrite !notification_using by auto.
  by destruct (bool_decide (Notification.id n = nid)),
              (bool_decide (pid p = Notification.user_id n)).
Qed.

(** C7, as stated, fails in its second part: [S] rewrites the title of the
    notification addressed to [S]; the [read] flag is not the only column a
    principal can change. *)
Lemma owner_rewrites_notification_title :
  let u := {| NotificationPatch.user_id := None;
              NotificationPatch.type := None;
              NotificationPatch.title := Some "You passed";
              NotificationPatch.message := None;
              NotificationPatch.read := None;
              NotificationPatch.created_at := None |} in
  update_notification Campus.S Campus.db_notified 50 u
  = Data (with_notifications Campus.db_notified
            [NotificationPatch.apply u Campus.graded_notice])
  ∧ Notification.title (NotificationPatch.apply u Campus.graded_notice)
    ≠ Notification.title Campus.graded_notice
  ∧ ¬ update_touches_read_only Campus.S Campus.db_notified 50 u.
Proof.
  intros u. split; [reflexivity|]. split; [by vm_compute|].
  intros Hclaim. specialize (Hclaim _ eq_refl).
  apply Forall2_cons_1 in Hclaim as [(_ & _ & _ & Htitle & _) _].
  revert Htitle. by vm_compute.
Qed.

(** C7 (amended): a session principal cannot insert a notification and
    cannot delete one; an update by a session principal changes a row only
    when the row's [user_id] is the principal's id, and leaves [user_id] as
    it is; such an update is applied whichever of the other columns it
    sets, [read] or not. *)
Theorem notification_rule p db :
  (∀ n, insert_notification p db n = Error Forbidden)
  ∧ (∀ nid, delete_notification p db nid = Data db)
  ∧ (∀ nid u db',
       update_notification p db nid u = Data db' →
       Forall2 (λ n n', n' = n
                        ∨ (Notification.user_id n = pid p
                           ∧ Notification.user_id n' = pid p
                           ∧ n' = NotificationPatch.apply u n))
               (notifications db) (notifications db'))
  ∧ (∀ n u,
       n ∈ notifications db → Notification.user_id n = pid p →
       pid p ∈ users db → NotificationPatch.user_id u = None →
       ∃ db', update_notification p db (Notification.id n) u = Data db'
              ∧ NotificationPatch.apply u n ∈ notifications db').
Proof.
  split; [|split; [|split]].
  - intros n. unfold insert_notification.
    by replace (rls_with_check notifications_policies INSERT p db n)
      with false by (unfold notifications_policies; by rls_unfold).
  - intros nid. unfold delete_notification, rls_delete.
    transitivity (Data (with_notifications db (notifications db)));
      [|by rewrite with_notifications_same].
    do 2 f_equal.
    induction (notifications db) as [|n l IH]; [done|].
    rewrite filter_cons, decide_True, IH; [done|].
    unfold delete_target, notifications_policies. rls_unfold.
    by rewrite andb_false_r.
  - intros nid u db'. unfold update_notification.
    destruct (rls_update _ _ _ _ _ _ _) as [rows|] eqn:Hrows; [|done].
    intros [= <-]. simpl.
    pose proof (rls_update_Data _ _ _ _ _ _ _ _ Hrows) as ->.
    apply Forall2_fmap_r, Forall_Forall2_diag, Forall_forall.
    intros n Hn. simpl.
    destruct (update_target _ _ _ _ n) eqn:Ht; [|by left]. right.
    destruct (rls_update_Data_checked _ _ _ _ _ _ _ _ n Hrows Hn Ht)
      as [Hchk _].
    rewrite notification_update_check in Hchk.
    rewrite notification_target in Ht.
    apply andb_true_iff in Ht as [_ Ht].
    apply bool_decide_eq_true in Ht, Hchk. done.
  - intros n u Hn Hown Husr Hu. unfold update_notification.
    rewrite rls_update_passes.
    + eexists. split; [done|]. simpl.
      apply list_elem_of_fmap. exists n. split; [|done].
      rewrite notification_target.
      by rewrite !bool_decide_eq_true_2.
    + intros r _ Ht. rewrite notification_target in Ht.
      apply andb_true_iff in Ht as [_ Ht%bool_decide_eq_true].
      rewrite notification_update_check. simpl. rewrite Hu. simpl.
      rewrite <- Ht. by rewrite !bool_decide_eq_true_2.
Qed.

Lemma notification_rule_witness :
  ∃ db', update_notification Campus.S Campus.db_notified 50
           {| NotificationPatch.user_id := None;
              NotificationPatch.type := None;
              NotificationPatch.title := None;
              NotificationPatch.message := None;
              NotificationPatch.read := Some true;
              NotificationPatch.created_at := None |} = Data db'
         ∧ NotificationPatch.apply
             {| NotificationPatch.user_id := None;
                NotificationPatch.type := None;
                NotificationPatch.title := None;
                NotificationPatch.message := None;
                NotificationPatch.read := Some true;
                NotificationPatch.created_at := None |}
             Campus.graded_notice ∈ notifications db'.
Proof.
  destruct (notification_rule Campus.S Campus.db_notified)
    as (_ & _ & _ & Hupdate).
  apply (Hupdate Campus.graded_notice).
  - vm_compute. apply list_elem_of_here.
  - reflexivity.
  - compute_done.
  - reflexivity.
Defined.


(** ** Course policy *)

(** C6: updating a course is permitted exactly to an administrator and to
    the lecturer who created the course. *)
Theorem course_update_permission p c :
  CoursePolicy.canUpdate p c = true ↔
  role p = admin ∨ (role p = lecturer ∧ pid p = Course.created_by c).
Proof.
  unfold CoursePolicy.canUpdate. destruct (role p).
  - split; [by left | done].
  - rewrite bool_decide_eq_true. split; [by right|].
    by intros [? | [_ ?]].
  - split; [done|]. by intros [? | [? _]].
Qed.

(** ** Notification fan-out *)

Lemma length_filter_fmap {A B} (f : A → B) (P : B → Prop)
    `{∀ y, Decision (P y)} (l : list A) :
  length (filter P (f <$> l)) = length (filter (λ x, P (f x)) l).
Proof.
  induction l as [|a l IH]; [done|].
  rewrite fmap_cons, !filter_cons. case_decide; simpl; by rewrite IH.
Qed.

Lemma NoDup_count {A} `{EqDecision A} (l : list A) (u : A) :
  NoDup l →
  length (filter (λ x, x = u) l) = if bool_decide (u ∈ l) then 1 else 0.
Proof.
  induction 1 as [|a l Ha _ IH]; [done|].
  rewrite filter_cons. destruct (decide (a = u)) as [Hau|Hau].
  - subst a. rewrite bool_decide_eq_true_2 by apply list_elem_of_here.
    simpl. rewrite IH. by rewrite bool_decide_eq_false_2.
  - rewrite IH. rewrite (bool_decide_ext (u ∈ a :: l) (u ∈ l)); [done|].
    rewrite elem_of_cons. split; [|by right]. by intros [-> | ?].
Qed.

(** C9: whatever the mutation, the fan-out inserts one notification for
    each principal among the derived recipients, however often the
    derivation names that principal, and none for anybody else. *)
Theorem one_notification_per_recipient env db m u :
  length (FanOut.delivered_to u env db m)
  = (if bool_decide (u ∈ FanOut.derived_recipients db m) then 1 else 0)
  ∧ NoDup (Notification.user_id <$> FanOut.inserted env db m)
  ∧ notifications (FanOut.fan_out env db m)
    = notifications db ++ FanOut.inserted env db m.
Proof.
  unfold FanOut.delivered_to, FanOut.inserted, FanOut.recipients.
  split; [|split; [|done]].
  - rewrite length_filter_fmap. simpl.
    rewrite NoDup_count by apply NoDup_remove_dups.
    by rewrite (bool_decide_ext _ _ (elem_of_remove_dups _ u)).
  - rewrite <- list_fmap_compose.
    rewrite (fmap_same_on _ id), list_fmap_id; [apply NoDup_remove_dups|done].
Qed.


(** ** The progress view *)

Lemma filter_filter_implied {A} (P Q : A → Prop)
    `{∀ x, Decision (P x)} `{∀ x, Decision (Q x)} (l : list A) :
  (∀ x, P x → Q x) → filter P (filter Q l) = filter P l.
Proof.
  intros HPQ. rewrite list_filter_filter. apply list_filter_iff.
  intros x. split; [by intros [? _] | auto].
Qed.

(** The policies of [enrollments], [assignments] and [submissions] hide none
    of the rows the progress view asks for, whatever the role. *)
Lemma own_enrollments_selected p db :
  filter (λ e, Enrollment.student_id e = pid p) (select_enrollments p db)
  = filter (λ e, Enrollment.student_id e = pid p) (enrollments db).
Proof.
  apply filter_filter_implied. intros e He.
  apply Is_true_true. unfold enrollments_policies, auth_uid. rls_unfold.
  by rewrite bool_decide_eq_true_2.
Qed.

Lemma enrolled_course_assignments_selected p db cid :
  has_enrollment (pid p) cid db →
  filter (λ a, Assignment.course_id a = cid) (select_assignments p db)
  = filter (λ a, Assignment.course_id a = cid) (assignments db).
Proof.
  intros Henr. apply filter_filter_implied. intros a Ha.
  apply Is_true_true. unfold assignments_policies. rls_unfold.
  rewrite bool_decide_eq_true_2; [done|].
  apply my_enrolled_courses_spec. by rewrite Ha.
Qed.



(** [reduce] from the left and the sum from the right agree. *)
Lemma foldl_add_foldr (l : list Z) (a : Z) :
  foldl Z.add a l = (a + foldr Z.add 0 l)%Z.
Proof.
  revert a. induction l as [|x l IH]; intros a; simpl; [lia|].
  rewrite IH. lia.
Qed.

Lemma avgGrade_None grades : avgGrade grades = None ↔ grades = [].
Proof.
  unfold avgGrade. destruct grades as [|g l]; [done|].
  rewrite bool_decide_eq_true_2 by (simpl; lia). done.
Qed.


Lemma non_null_grades_nil l :
  non_null_grades l = [] ↔ Forall (λ s, Submission.grade s = None) l.
Proof.
  unfold non_null_grades. induction l as [|s l IH]; [done|].
  simpl. destruct (Submission.grade s) eqn:Hg; simpl.
  - split; [done|]. intros [? _]%Forall_cons. congruence.
  - rewrite IH. split; [by constructor | by intros [_ ?]%Forall_cons].
Qed.


Lemma mapM_fmap_Forall2 {A B C} (f : A → B) (g : B → option C)
    (R : A → C → Prop) (l : list A) :
  Forall (λ x, ∃ y, g (f x) = Some y ∧ R x y) l →
  ∃ k, mapM g (f <$> l) = Some k ∧ Forall2 R l k.
Proof.
  induction 1 as [|x l (y & Hy & HR) _ (k & Hk & HRk)].
  - by exists [].
  - exists (y :: k). split; [|by constructor].
    rewrite fmap_cons. simpl. by rewrite Hy, Hk.
Qed.

Lemma embedded_course p db e :
  enrollments_reference_courses db → e ∈ enrollments db →
  is_Some (head (filter (λ c, Course.id c = Enrollment.course_id e)
                        (select_courses p db))).
Proof.
  intros Hfk He. unfold enrollments_reference_courses in Hfk.
  rewrite Forall_forall in Hfk.
  apply Hfk, list_elem_of_fmap in He as (c & Hid & Hc).
  apply head_is_Some. unfold select_courses. intros Hnil.
  exact (filter_nil_not_elem_of
           (λ c, Course.id c = Enrollment.course_id e) (courses db) c
           Hnil (eq_sym Hid) Hc).
Qed.




(** * Further properties *)

(** ** Who sees which rows *)

Lemma courses_created_by_me_spec p db cid :
  cid ∈ courses_created_by_me p db ↔ created_course p db cid.
Proof.
  unfold courses_created_by_me, created_course, select_courses, auth_uid.
  rewrite list_elem_of_fmap, Exists_exists. split.
  - intros (c & -> & [Hby Hc]%list_elem_of_filter). by exists c.
  - intros (c & Hc & <- & Hby). exists c. split; [done|].
    by apply list_elem_of_filter.
Qed.

Lemma role_cases p (P : Prop) :
  (role p = admin → P) → (role p = lecturer → P) → (role p = student → P) →
  P.
Proof. destruct (role p); auto. Qed.

(** X1: a session sees an enrollment exactly when it is the session's own
    row, or the session is a lecturer who created the course of the row, or
    the session is an administrator. *)
Theorem enrollment_visibility p db e :
  e ∈ select_enrollments p db ↔
  e ∈ enrollments db
  ∧ (Enrollment.student_id e = pid p
     ∨ (role p = lecturer ∧ created_course p db (Enrollment.course_id e))
     ∨ role p = admin).
Proof.
  unfold select_enrollments.
  rewrite list_elem_of_filter, Is_true_true.
  unfold enrollments_policies, auth_uid. rls_unfold.
  rewrite orb_false_r, !orb_true_iff, andb_true_iff, !bool_decide_eq_true.
  rewrite courses_created_by_me_spec.
  apply (role_cases p); intros Hrole; as_role Hrole; rewrite Hrole;
    intuition (discriminate || eauto).
Qed.

(** X2: a session sees an assignment exactly when the session has an
    enrollment in the course of the assignment (whatever the role of the
    session and the status of the enrollment), or is a lecturer who created
    the course, or is an administrator. *)
Theorem assignment_visibility p db a :
  a ∈ select_assignments p db ↔
  a ∈ assignments db
  ∧ (has_enrollment (pid p) (Assignment.course_id a) db
     ∨ (role p = lecturer ∧ created_course p db (Assignment.course_id a))
     ∨ role p = admin).
Proof.
  unfold select_assignments.
  rewrite list_elem_of_filter, Is_true_true.
  unfold assignments_policies. rls_unfold.
  rewrite orb_false_r, !orb_true_iff, andb_true_iff, !bool_decide_eq_true.
  rewrite courses_created_by_me_spec, my_enrolled_courses_spec.
  apply (role_cases p); intros Hrole; as_role Hrole; rewrite Hrole;
    intuition (discriminate || eauto).
Qed.

(** X3: a session sees a submission exactly when it is the session's own
    submission, or the session is a lecturer who created the course of the
    submission's assignment, or the session is an administrator. *)
Theorem submission_visibility p db s :
  s ∈ select_submissions p db ↔
  s ∈ submissions db
  ∧ (Submission.student_id s = pid p
     ∨ (role p = lecturer ∧ owns_course_of p db s)
     ∨ role p = admin).
Proof.
  unfold select_submissions.
  rewrite list_elem_of_filter, Is_true_true.
  unfold submissions_policies, auth_uid. rls_unfold.
  rewrite orb_false_r, !orb_true_iff, andb_true_iff, !bool_decide_eq_true.
  apply (role_cases p); intros Hrole; as_role Hrole; rewrite Hrole;
    rewrite ?(lecturer_owned_assignments p db s Hrole);
    intuition (discriminate || eauto).
Qed.

(** ** Who may write enrollments *)

(** X4: an insert into [enrollments] is refused by the policies exactly when
    the session is neither an administrator nor a student enrolling
    themselves (a lecturer can enroll nobody); and it succeeds exactly when
    it is not refused, the id and the (student_id, course_id) pair are new,
    and the student and the course exist. *)
Theorem enrollment_insert_rule p db e :
  let permitted :=
    role p = admin ∨ (role p = student ∧ Enrollment.student_id e = pid p) in
  (insert_enrollment p db e = Error Forbidden ↔ ¬ permitted)
  ∧ ((∃ db', insert_enrollment p db e = Data db') ↔
     permitted
     ∧ (Enrollment.id e ∉ Enrollment.id <$> enrollments db)
     ∧ (enrollment_key e ∉ enrollment_key <$> enrollments db)
     ∧ Enrollment.student_id e ∈ users db
     ∧ Enrollment.course_id e ∈ (Course.id <$> courses db)).
Proof.
  intros permitted.
  assert (Hchk : rls_with_check enrollments_policies INSERT p db e = true
                 ↔ permitted).
  { rewrite enrollment_insert_check. unfold auth_uid, permitted.
    rewrite orb_true_iff, andb_true_iff, bool_decide_eq_true.
    apply (role_cases p); intros Hrole; as_role Hrole; rewrite Hrole;
      intuition (discriminate || eauto). }
  unfold insert_enrollment.
  destruct (rls_with_check enrollments_policies INSERT p db e); simpl.
  - assert (Hp : permitted) by by apply Hchk.
    split; [|split].
    + repeat case_bool_decide; simpl; split; try done; by intros [].
    + intros [db' Hins].
      repeat case_bool_decide; simplify_eq/=; done.
    + intros (_ & Hid & Hkey & Husr & Hcrs).
      rewrite (bool_decide_eq_false_2 _ Hid), (bool_decide_eq_false_2 _ Hkey).
      rewrite (bool_decide_eq_true_2 _ Husr), (bool_decide_eq_true_2 _ Hcrs).
      by eexists.
  - assert (Hp : ¬ permitted) by (intros Hp%Hchk; done).
    split; [done|]. split; [by intros [? ?] | by intros [? _]].
Qed.

(** The UPDATE and DELETE policies of [enrollments] are the administrator's
    only. *)
Lemma enrollment_write_using p db e c :
  (c = UPDATE ∨ c = DELETE) →
  rls_using enrollments_policies c p db e = has_role p admin.
Proof.
  unfold enrollments_policies.
  intros [-> | ->]; rls_unfold; by rewrite orb_false_r.
Qed.

Lemma filter_all {A} (P : A → Prop) `{∀ x, Decision (P x)} (l : list A) :
  (∀ x, x ∈ l → P x) → filter P l = l.
Proof.
  induction l as [|a l IH]; intros Hall; [done|].
  rewrite filter_cons, decide_True by (apply Hall; left).
  rewrite IH; [done|]. intros x Hx. apply Hall. by right.
Qed.

(** X5: only an administrator changes or removes an enrollment: for any
    other session the status update and the delete are answered without an
    error and change nothing, so a student can neither withdraw nor
    unenroll. *)
Theorem enrollment_change_admin_only p db :
  role p ≠ admin →
  (∀ eid st, update_enrollment_status p db eid st = Data db)
  ∧ (∀ sid cid, delete_enrollment p db sid cid = Data db).
Proof.
  intros Hrole.
  assert (Hadm : has_role p admin = false).
  { unfold has_role. by apply bool_decide_eq_false. }
  split.
  - intros eid st. unfold update_enrollment_status.
    rewrite rls_update_no_target; [by rewrite with_enrollments_same|].
    intros e _. unfold update_target.
    rewrite (enrollment_write_using p db e UPDATE) by auto.
    by rewrite Hadm, andb_false_r.
  - intros sid cid. unfold delete_enrollment, rls_delete.
    rewrite filter_all; [by rewrite with_enrollments_same|].
    intros e _. unfold delete_target.
    rewrite (enrollment_write_using p db e DELETE) by auto.
    by rewrite Hadm, andb_false_r.
Qed.

Lemma enrollment_change_admin_only_witness :
  update_enrollment_status Campus.S (Campus.db_enrolled "active") 30 "withdrawn"
  = Data (Campus.db_enrolled "active")
  ∧ delete_enrollment Campus.S (Campus.db_enrolled "active") 3 10
    = Data (Campus.db_enrolled "active").
Proof.
  destruct (enrollment_change_admin_only
              Campus.S (Campus.db_enrolled "active")) as [Hupd Hdel].
  - vm_compute. discriminate.
  - split; [apply Hupd | apply Hdel].
Defined.

(** X6: an administrator's delete removes the rows of the pair and no
    other row: afterwards the pair has no enrollment and every other pair
    has the rows it had. *)
Theorem admin_unenrolls p db sid cid db' :
  role p = admin →
  delete_enrollment p db sid cid = Data db' →
  enrollments db'
  = filter (λ e, enrollment_key e ≠ (sid, cid)) (enrollments db)
  ∧ enrollment_count (sid, cid) db' = 0
  ∧ ∀ k, k ≠ (sid, cid) → enrollment_count k db' = enrollment_count k db.
Proof.
  intros Hrole. unfold delete_enrollment, rls_delete. intros [= <-].
  assert (Hrows : filter (λ e, delete_target enrollments_policies p db
                     (λ e, bool_decide (enrollment_key e = (sid, cid))) e
                     = false) (enrollments db)
                  = filter (λ e, enrollment_key e ≠ (sid, cid))
                           (enrollments db)).
  { apply list_filter_iff. intros e. unfold delete_target.
    rewrite (enrollment_write_using p db e DELETE) by auto.
    assert (Hsel : rls_using enrollments_policies SELECT p db e = true).
    { unfold enrollments_policies. rls_unfold. as_role Hrole.
      by rewrite !orb_true_r. }
    rewrite Hsel. as_role Hrole. rewrite !andb_true_r.
    by rewrite bool_decide_eq_false. }
  unfold enrollment_count. simpl. rewrite Hrows.
  split; [done|]. split.
  - rewrite list_filter_filter.
    rewrite (elem_of_nil_inv (filter _ _)); [done|].
    intros e [[? ?] _]%list_elem_of_filter. done.
  - intros k Hk. rewrite list_filter_filter. f_equal.
    apply list_filter_iff. intros e. split; [by intros [? _]|].
    intros He. split; [done|]. by rewrite He.
Qed.

Lemma admin_unenrolls_witness :
  enrollment_count (3%N, 10%N)
    (with_enrollments (Campus.db_enrolled "active") []) = 0.
Proof.
  refine (proj1 (proj2 (admin_unenrolls Campus.Adm
            (Campus.db_enrolled "active") 3 10
            (with_enrollments (Campus.db_enrolled "active") []) _ _))).
  - reflexivity.
  - reflexivity.
Defined.

(** ** The student dashboard *)

(** An enrollment opens the assignments of its course, whatever the role of
    the session. *)
Lemma enrolled_reads_assignment p db a :
  has_enrollment (pid p) (Assignment.course_id a) db →
  a ∈ assignments db → a ∈ select_assignments p db.
Proof.
  intros Henr Ha. unfold select_assignments.
  apply list_elem_of_filter. split; [|done].
  apply Is_true_true. unfold assignments_policies. rls_unfold.
  rewrite bool_decide_eq_true_2; [done|]. by apply my_enrolled_courses_spec.
Qed.

Lemma handleEnroll_success u new_id now db cid db' t :
  handleEnroll (Some u) new_id now db cid = (db', Some (Toast t)) →
  insert_enrollment u db
    {| Enrollment.id := new_id; Enrollment.student_id := pid u;
       Enrollment.course_id := cid; Enrollment.enrolled_at := now;
       Enrollment.status := "active" |} = Data db'.
Proof.
  unfold handleEnroll.
  destruct (insert_enrollment u db _) as [d|]; [|done]. by intros [= ->].
Qed.

(** X7: when [handleEnroll] reports success, the database has gained one
    enrollment row, for the user and the course, with status "active" and
    the other tables are as they were; the user sees the row, and can read
    every assignment of the course. *)
Theorem enroll_opens_course u new_id now db cid db' :
  handleEnroll (Some u) new_id now db cid
  = (db', Some (Toast "Successfully enrolled in course!")) →
  let e := {| Enrollment.id := new_id; Enrollment.student_id := pid u;
              Enrollment.course_id := cid; Enrollment.enrolled_at := now;
              Enrollment.status := "active" |} in
  db' = with_enrollments db (enrollments db ++ [e])
  ∧ e ∈ select_enrollments u db'
  ∧ ∀ a, a ∈ assignments db → Assignment.course_id a = cid →
         can_read_assignment u db' a.
Proof.
  intros Hok e. apply handleEnroll_success in Hok. fold e in Hok.
  apply insert_enrollment_Data in Hok as (_ & _ & ->).
  assert (He : e ∈ enrollments (with_enrollments db (enrollments db ++ [e]))).
  { simpl. apply elem_of_app. right. by apply list_elem_of_singleton. }
  split; [done|]. split.
  - by apply own_enrollment_visible.
  - intros a Ha Hcid. apply enrolled_reads_assignment; [|done].
    apply Exists_exists. exists e. by rewrite Hcid.
Qed.

Lemma enroll_opens_course_witness :
  can_read_assignment Campus.S2
    (handleEnroll (Some Campus.S2) 31 5 Campus.db_posted 10).1 Campus.HW1.
Proof.
  destruct (enroll_opens_course Campus.S2 31 5 Campus.db_posted 10
              (handleEnroll (Some Campus.S2) 31 5 Campus.db_posted 10).1)
    as (_ & _ & Hread); [reflexivity|].
  apply Hread; [|reflexivity]. vm_compute. apply list_elem_of_here.
Defined.

(** What [fetchData] puts on the dashboard, over the tables themselves. *)
Lemma fetchData_lists u db :
  fetchData (Some u) db
  = Some {| dash_enrollments :=
              (λ e, (e, head (filter (λ c, Course.id c = Enrollment.course_id e)
                                     (courses db))))
              <$> filter (λ e, Enrollment.student_id e = pid u)
                         (enrollments db);
            availableCourses :=
              filter (λ c, Course.id c
                           ∉ Enrollment.course_id
                             <$> filter (λ e, Enrollment.student_id e = pid u)
                                        (enrollments db))
                     (courses db) |}.
Proof.
  unfold fetchData, select_courses. rewrite own_enrollments_selected.
  do 3 f_equal. apply list_filter_iff. intros c.
  by rewrite <- list_fmap_compose.
Qed.

(** X8: the dashboard lists the enrollments of the user, all of them and no
    other; a course is offered under "Available Courses" exactly when it is
    in the catalogue and the user has no enrollment, of any status, in
    it. *)
Theorem dashboard_lists u db d :
  fetchData (Some u) db = Some d →
  (dash_enrollments d).*1
  = filter (λ e, Enrollment.student_id e = pid u) (enrollments db)
  ∧ ∀ c, c ∈ availableCourses d ↔
         c ∈ courses db ∧ ¬ has_enrollment (pid u) (Course.id c) db.
Proof.
  rewrite fetchData_lists. intros [= <-]. simpl. split.
  - rewrite <- list_fmap_compose. apply list_fmap_id.
  - intros c. rewrite list_elem_of_filter, list_elem_of_fmap.
    unfold has_enrollment. rewrite Exists_exists. split.
    + intros [Hno Hc]. split; [done|]. intros (e & He & Hs & Hcid).
      apply Hno. exists e. split; [done|]. by apply list_elem_of_filter.
    + intros [Hc Hno]. split; [|done].
      intros (e & Hcid & [Hs He]%list_elem_of_filter). apply Hno. by exists e.
Qed.

Lemma dashboard_lists_witness :
  (Campus.CS101 ∈ availableCourses
     {| dash_enrollments := []; availableCourses := [Campus.CS101] |} ↔
   Campus.CS101 ∈ courses Campus.db_posted
   ∧ ¬ has_enrollment (pid Campus.S2) (Course.id Campus.CS101)
         Campus.db_posted).
Proof.
  apply (dashboard_lists Campus.S2 Campus.db_posted
           {| dash_enrollments := []; availableCourses := [Campus.CS101] |}).
  reflexivity.
Defined.

(** X9: [handleEnroll] followed by [fetchData], as the dashboard does on
    success: the course enrolled in leaves "Available Courses", the other
    available courses stay, and "My Courses" gains the new enrollment. *)
Theorem enroll_updates_dashboard u new_id now db cid db' d d' :
  handleEnroll (Some u) new_id now db cid
  = (db', Some (Toast "Successfully enrolled in course!")) →
  fetchData (Some u) db = Some d →
  fetchData (Some u) db' = Some d' →
  availableCourses d'
  = filter (λ c, Course.id c ≠ cid) (availableCourses d)
  ∧ (dash_enrollments d').*1
    = (dash_enrollments d).*1
      ++ [{| Enrollment.id := new_id; Enrollment.student_id := pid u;
             Enrollment.course_id := cid; Enrollment.enrolled_at := now;
             Enrollment.status := "active" |}].
Proof.
  intros Hok%handleEnroll_success.
  apply insert_enrollment_Data in Hok as (_ & _ & ->).
  rewrite !fetchData_lists. intros [= <-] [= <-]. simpl.
  rewrite filter_app, filter_cons, decide_True by done.
  rewrite filter_nil. split.
  - rewrite list_filter_filter. apply list_filter_iff. intros c.
    rewrite fmap_app. simpl. rewrite not_elem_of_app, list_elem_of_singleton.
    tauto.
  - rewrite <- !list_fmap_compose, fmap_app. simpl.
    by rewrite !list_fmap_id.
Qed.

Lemma enroll_updates_dashboard_witness :
  availableCourses
    {| dash_enrollments :=
         [(Campus.enrollment_of_S "active", Some Campus.CS101)];
       availableCourses := [] |}
  = filter (λ c, Course.id c ≠ 10%N)
      (availableCourses
         {| dash_enrollments := []; availableCourses := [Campus.CS101] |}).
Proof.
  refine (proj1 (enroll_updates_dashboard Campus.S 30 1 Campus.db_posted 10
                   (Campus.db_enrolled "active") _ _ _ _ _));
    reflexivity.
Defined.

(** ** The list of enrolled students *)

#[global] Instance newest_first_total : Total newest_first.
Proof. intros e1 e2. unfold newest_first. lia. Qed.

(** A key column finds its row, and only it. *)
Lemma filter_key_single {A K} `{EqDecision K} (key : A → K) (l : list A) x :
  NoDup (key <$> l) → x ∈ l → filter (λ y, key y = key x) l = [x].
Proof.
  induction l as [|a l IH]; intros Hnd Hx; [by apply elem_of_nil in Hx|].
  rewrite fmap_cons in Hnd. apply NoDup_cons in Hnd as [Ha Hnd].
  rewrite filter_cons. apply elem_of_cons in Hx as [<- | Hx].
  - rewrite decide_True by done. f_equal. apply elem_of_nil_inv.
    intros y [Hy Hin]%list_elem_of_filter. apply Ha. rewrite <- Hy.
    by apply list_elem_of_fmap_2.
  - rewrite decide_False; [by apply IH|].
    intros Hk. apply Ha. rewrite Hk. by apply list_elem_of_fmap_2.
Qed.

(** The enrollments of a course, as its creator or an administrator reads
    them. *)
Lemma course_enrollments_selected p db c :
  c ∈ courses db →
  role p = admin ∨ (role p = lecturer ∧ Course.created_by c = pid p) →
  filter (λ e, Enrollment.course_id e = Course.id c) (select_enrollments p db)
  = filter (λ e, Enrollment.course_id e = Course.id c) (enrollments db).
Proof.
  intros Hc Hmay. apply filter_filter_implied. intros e He.
  apply Is_true_true. unfold enrollments_policies. rls_unfold.
  destruct Hmay as [Hrole | [Hrole Hby]]; as_role Hrole.
  - by rewrite !orb_true_r.
  - rewrite (bool_decide_eq_true_2 (Enrollment.course_id e ∈ _));
      [by rewrite orb_true_r|].
    apply courses_created_by_me_spec, Exists_exists. by exists c.
Qed.

(** Within one course, the unique pair makes the students distinct. *)
Lemma course_students_distinct db cid :
  unique_enrollments db →
  NoDup (Enrollment.student_id
         <$> filter (λ e, Enrollment.course_id e = cid) (enrollments db)).
Proof.
  unfold unique_enrollments.
  induction (enrollments db) as [|e l IH]; [intros _; constructor|].
  rewrite fmap_cons, NoDup_cons. intros [He Hl].
  rewrite filter_cons. case_decide as Hcid; [|by apply IH].
  rewrite fmap_cons. apply NoDup_cons. split; [|by apply IH].
  intros Hin. apply He.
  apply list_elem_of_fmap in Hin as (e' & Hs & [Hc He']%list_elem_of_filter).
  apply list_elem_of_fmap. exists e'. split; [|done].
  unfold enrollment_key. by rewrite Hs, Hc, Hcid.
Qed.

Section EnrollmentsPage_facts.
Variable select_profile : Principal → uuid → option Profile.

Lemma with_profile_student p (l : list Enrollment.t) :
  EnrolledStudent.student_id <$> (with_profile select_profile p <$> l)
  = Enrollment.student_id <$> l.
Proof. rewrite <- list_fmap_compose. by apply list_fmap_ext. Qed.

(** X10: the lecturer who created a course, and an administrator, get from
    [fetchEnrollments] the title of the course and one entry for each
    enrollment of the course, newest first; no student appears twice, so
    "Total students" is the number of students enrolled. *)
Theorem owner_lists_enrolled_students p db c :
  courses_pkey db → unique_enrollments db → c ∈ courses db →
  role p = admin ∨ (role p = lecturer ∧ Course.created_by c = pid p) →
  ∃ rows,
    fetchEnrollments select_profile p (Some (Course.id c)) db
    = Listed (Course.title c) rows
    ∧ EnrolledStudent.student_id <$> rows
      ≡ₚ Enrollment.student_id
         <$> filter (λ e, Enrollment.course_id e = Course.id c)
                    (enrollments db)
    ∧ NoDup (EnrolledStudent.student_id <$> rows)
    ∧ Sorted (λ r1 r2, (EnrolledStudent.enrolled_at r2
                        ≤ EnrolledStudent.enrolled_at r1)%Z) rows.
Proof.
  intros Hpk Huniq Hc Hmay. unfold fetchEnrollments, select_courses.
  rewrite (filter_key_single Course.id (courses db) c Hpk Hc). simpl.
  rewrite (course_enrollments_selected p db c Hc Hmay).
  eexists. split; [done|].
  assert (Hperm : EnrolledStudent.student_id
                  <$> (with_profile select_profile p
                       <$> merge_sort newest_first
                             (filter (λ e, Enrollment.course_id e = Course.id c)
                                     (enrollments db)))
                  ≡ₚ Enrollment.student_id
                     <$> filter (λ e, Enrollment.course_id e = Course.id c)
                                (enrollments db)).
  { rewrite with_profile_student. apply fmap_Permutation.
    apply merge_sort_Permutation. }
  split; [done|]. split.
  - rewrite Hperm. by apply course_students_distinct.
  - eapply Sorted_fmap; [|apply (Sorted_merge_sort newest_first)].
    intros e1 e2 H. exact H.
Qed.

(** X11: a session that is neither the creator of the course nor an
    administrator gets no error from [fetchEnrollments]: it gets the title
    and only the session's own enrollment in the course, hence the empty
    list, as for a course nobody is enrolled in, when it has none. *)
Theorem stranger_lists_own_enrollment_only p db c :
  courses_pkey db → c ∈ courses db →
  role p ≠ admin → ¬ created_course p db (Course.id c) →
  ∃ rows,
    fetchEnrollments select_profile p (Some (Course.id c)) db
    = Listed (Course.title c) rows
    ∧ Forall (λ r, EnrolledStudent.student_id r = pid p) rows
    ∧ (¬ has_enrollment (pid p) (Course.id c) db → rows = []).
Proof.
  intros Hpk Hc Hrole Hnot. unfold fetchEnrollments, select_courses.
  rewrite (filter_key_single Course.id (courses db) c Hpk Hc). simpl.
  eexists. split; [done|].
  assert (Hown : ∀ e, e ∈ filter (λ e, Enrollment.course_id e = Course.id c)
                                 (select_enrollments p db) →
                      e ∈ enrollments db ∧ Enrollment.student_id e = pid p
                      ∧ Enrollment.course_id e = Course.id c).
  { intros e [Hcid He]%list_elem_of_filter.
    apply list_elem_of_filter in He as [Hpol He]. split; [done|].
    split; [|done]. apply Is_true_true in Hpol. revert Hpol.
    unfold enrollments_policies, auth_uid. rls_unfold.
    rewrite orb_false_r, !orb_true_iff, andb_true_iff, !bool_decide_eq_true.
    rewrite courses_created_by_me_spec, Hcid.
    intros [Hs | [[_ Hcr] | Hadm]]; [done | done |].
    unfold has_role in Hadm. by apply bool_decide_eq_true in Hadm. }
  split.
  - apply Forall_fmap, Forall_forall. intros e He. simpl.
    rewrite merge_sort_Permutation in He. by apply Hown in He as (_ & ? & _).
  - intros Hnone.
    assert (Hnil : filter (λ e, Enrollment.course_id e = Course.id c)
                          (select_enrollments p db) = []).
    { apply elem_of_nil_inv. intros e (He & Hs & Hcid)%Hown.
      apply Hnone, Exists_exists. by exists e. }
    by rewrite Hnil.
Qed.
End EnrollmentsPage_facts.

Lemma owner_lists_enrolled_students_witness :
  ∃ rows,
    fetchEnrollments (λ _ _, None) Campus.L (Some 10%N)
      (Campus.db_enrolled "active")
    = Listed "CS101" rows
    ∧ EnrolledStudent.student_id <$> rows ≡ₚ [3%N].
Proof.
  destruct (owner_lists_enrolled_students (λ _ _, None) Campus.L
              (Campus.db_enrolled "active") Campus.CS101)
    as (rows & Hrows & Hperm & _).
  - vm_compute. repeat constructor. apply not_elem_of_nil.
  - vm_compute. repeat constructor. apply not_elem_of_nil.
  - vm_compute. apply list_elem_of_here.
  - right. split; reflexivity.
  - exists rows. split; [exact Hrows | exact Hperm].
Defined.

Lemma stranger_lists_own_enrollment_only_witness :
  ∃ rows,
    fetchEnrollments (λ _ _, None) Campus.L2 (Some 10%N)
      (Campus.db_enrolled "active")
    = Listed "CS101" rows
    ∧ rows = [].
Proof.
  destruct (stranger_lists_own_enrollment_only (λ _ _, None) Campus.L2
              (Campus.db_enrolled "active") Campus.CS101)
    as (rows & Hrows & _ & Hnil).
  - vm_compute. repeat constructor. apply not_elem_of_nil.
  - vm_compute. apply list_elem_of_here.
  - vm_compute. discriminate.
  - compute_done.
  - exists rows. split; [exact Hrows|]. apply Hnil. compute_done.
Defined.

(** ** The life of a submission *)

Lemma insert_submission_Data p db s db' :
  insert_submission p db s = Data db' →
  (Submission.id s ∉ Submission.id <$> submissions db)
  ∧ (submission_key s ∉ submission_key <$> submissions db)
  ∧ Submission.assignment_id s ∈ (Assignment.id <$> assignments db)
  ∧ db' = with_submissions db (submissions db ++ [s]).
Proof.
  unfold insert_submission. intros Hins.
  destruct (rls_with_check _ _ _ _ _); [|done]. simpl in Hins.
  destruct (graded_by_exists db s); repeat case_bool_decide; by simplify_eq/=.
Qed.

Lemma NoDup_fmap_snoc {A K} (key : A → K) (l : list A) x :
  NoDup (key <$> l) → key x ∉ key <$> l → NoDup (key <$> l ++ [x]).
Proof.
  intros Hl Hx. rewrite fmap_app. apply NoDup_app.
  split; [done|]. split; [|apply NoDup_singleton].
  by intros k Hk ->%list_elem_of_singleton.
Qed.

Lemma submission_step_consistent db db' :
  submission_step db db' →
  submissions_consistent db → submissions_consistent db'.
Proof.
  unfold submissions_consistent, unique_submissions, submissions_pkey,
    submissions_reference_assignments.
  intros [p d s d' H | p d sid u d' H | p d a d' H | p d aid d' H]
         (Huniq & Hpk & Href).
  - apply insert_submission_Data in H as (Hid & Hkey & Hasg & ->). simpl.
    split; [by apply NoDup_fmap_snoc|]. split; [by apply NoDup_fmap_snoc|].
    apply Forall_app. split; [done|]. by apply Forall_singleton.
  - unfold update_submission in H.
    destruct (rls_update _ _ _ _ _ _ _) as [rows|] eqn:Hrows; [|done].
    apply rls_update_Data in Hrows. simplify_eq/=.
    rewrite !fmap_key_preserved
      by (intros r; by destruct (update_target _ _ _ _ r)).
    split; [done|]. split; [done|].
    apply Forall_fmap. eapply Forall_impl; [exact Href|].
    intros r Hr. simpl. by destruct (update_target _ _ _ _ r).
  - unfold insert_assignment in H.
    repeat (case_match; simplify_eq/=). split; [done|]. split; [done|].
    eapply Forall_impl; [exact Href|]. intros r Hr. simpl.
    rewrite fmap_app. apply elem_of_app. by left.
  - unfold delete_assignment in H. simplify_eq/=.
    split; [by apply NoDup_fmap_filter|].
    split; [by apply NoDup_fmap_filter|].
    apply Forall_forall. intros r [Hkept Hr]%list_elem_of_filter.
    rewrite Forall_forall in Href.
    apply Href, list_elem_of_fmap in Hr as (a & Hid & Ha).
    apply list_elem_of_fmap. exists a. split; [done|].
    unfold rls_delete. apply list_elem_of_filter. split; [|done].
    apply not_true_is_false. intros Hdel. apply Hkept.
    apply list_elem_of_fmap. exists a. split; [done|].
    by apply list_elem_of_filter.
Qed.

(** X12: in every state reached by creating and updating submissions and by
    posting and deleting assignments, a (assignment_id, student_id) pair
    has at most one submission, no two submissions share an id, and every
    submission refers to an assignment that exists: deleting an assignment
    takes its submissions with it. *)
Theorem submissions_stay_consistent db :
  submissions_reachable db →
  (∀ k, submission_count k db ≤ 1)
  ∧ submissions_pkey db
  ∧ submissions_reference_assignments db.
Proof.
  intros Hreach.
  assert (Hcons : submissions_consistent db).
  { induction Hreach as [db Hnil | db db' _ IH Hstep].
    - unfold submissions_consistent, unique_submissions, submissions_pkey,
        submissions_reference_assignments. rewrite Hnil.
      repeat split; constructor.
    - by eapply submission_step_consistent. }
  destruct Hcons as (Huniq & Hpk & Href). split; [|done].
  intros k. by apply NoDup_key_count.
Qed.

Lemma submissions_stay_consistent_witness :
  submissions_pkey (Campus.db_answered None)
  ∧ submissions_reference_assignments (Campus.db_answered None).
Proof.
  refine (proj2 (submissions_stay_consistent (Campus.db_answered None) _)).
  apply (sreach_step (Campus.db_enrolled "active")).
  - by apply sreach_created.
  - by apply (sstep_submit Campus.S _ (Campus.answer_of_S None)).
Defined.

Lemma submission_id_identifies db s :
  s ∈ submissions db → submissions_pkey db →
  ∀ r, r ∈ submissions db →
       bool_decide (Submission.id r = Submission.id s) = bool_decide (r = s).
Proof.
  intros Hs Hpk r Hr. apply bool_decide_ext. split; [|by intros ->].
  by apply (key_identifies Submission.id (submissions db)).
Qed.






(** The policies on an ungraded submission, for a student. *)
Lemma student_submission_using p db s c :
  role p = student → (c = SELECT ∨ c = UPDATE) →
  Submission.grade s = None →
  rls_using submissions_policies c p db s
  = bool_decide (pid p = Submission.student_id s).
Proof.
  intros Hrole Hc Hg. unfold submissions_policies, auth_uid.
  destruct Hc as [-> | ->]; rls_unfold; as_role Hrole;
    rewrite ?Hg, ?andb_true_r, ?orb_false_r; done.
Qed.

Lemma student_update_check p db s :
  role p = student →
  update_check submissions_policies p db s
  = bool_decide (pid p = Submission.student_id s)
    && bool_decide (Submission.grade s = None).
Proof.
  intros Hrole. unfold update_check, submissions_policies, auth_uid.
  rls_unfold. as_role Hrole. rewrite !orb_false_r.
  destruct (bool_decide (pid p = Submission.student_id s)),
           (bool_decide (Submission.grade s = None)); done.
Qed.

(** X14: while a submission is ungraded, the student who made it can edit
    its text; the student's attempt to grade it is refused with
    [Forbidden], since the row it would write has a grade; and an update by
    any other student is answered without an error and changes nothing. *)
Theorem ungraded_submission_student_rule p db s :
  s ∈ submissions db → submissions_pkey db →
  Submission.grade s = None → graded_by_exists db s = true →
  role p = student → Submission.student_id s = pid p →
  (∀ c, update_submission p db (Submission.id s) (content_update c)
        = Data (patched db (Submission.id s) (content_update c)))
  ∧ (∀ g fb now,
       grade_submission p db (Submission.id s) g fb now = Error Forbidden)
  ∧ (∀ p' u, role p' = student → pid p' ≠ Submission.student_id s →
             update_submission p' db (Submission.id s) u = Data db).
Proof.
  intros Hs Hpk Hg Hfk Hrole Hown.
  pose proof (submission_id_identifies db s Hs Hpk) as Hid.
  assert (Htarget : ∀ r, r ∈ submissions db →
            update_target submissions_policies p db
              (λ r, bool_decide (Submission.id r = Submission.id s)) r
            = bool_decide (r = s)).
  { intros r Hr. unfold update_target. rewrite (Hid r Hr).
    case_bool_decide as Heq; [subst r|done].
    rewrite !student_submission_using by auto.
    by rewrite bool_decide_eq_true_2. }
  split; [|split].
  - intros c. unfold update_submission.
    rewrite (rls_update_one _ _ _ _ _ _ _ s Hs Htarget).
    + replace (graded_by_exists db (SubmissionPatch.apply (content_update c) s))
        with true by done.
      unfold patched. do 2 f_equal. apply fmap_same_on.
      intros r Hr. by rewrite <- (Hid r Hr).
    + rewrite student_update_check by done. simpl.
      by rewrite Hg, !bool_decide_eq_true_2.
  - intros g fb now. unfold grade_submission, update_submission, rls_update.
    rewrite (forallb_one _ (λ r, update_check submissions_policies p db
               (SubmissionPatch.apply (grading_update g fb p now) r))
               (submissions db) s Hs Htarget).
    rewrite student_update_check by done. simpl.
    by rewrite andb_false_r.
  - intros p' u Hrole' Hother. unfold update_submission.
    rewrite rls_update_no_target; [by rewrite with_submissions_same|].
    intros r Hr. unfold update_target. rewrite (Hid r Hr).
    case_bool_decide as Heq; [subst r|done].
    rewrite !student_submission_using by auto.
    by rewrite bool_decide_eq_false_2.
Qed.

Lemma ungraded_submission_student_rule_witness :
  grade_submission Campus.S (Campus.db_answered None) 40 100 "Perfect" 3
  = Error Forbidden
  ∧ update_submission Campus.S2 (Campus.db_answered None) 40
      (content_update "copied") = Data (Campus.db_answered None).
Proof.
  destruct (ungraded_submission_student_rule Campus.S
              (Campus.db_answered None) (Campus.answer_of_S None))
    as (_ & Hgrade & Hother).
  - vm_compute. apply list_elem_of_here.
  - vm_compute. repeat constructor. apply not_elem_of_nil.
  - reflexivity.
  - reflexivity.
  - reflexivity.
  - reflexivity.
  - split; [apply Hgrade|]. apply (Hother Campus.S2); [reflexivity|].
    vm_compute. discriminate.
Defined.

(** ** Posting and deleting assignments *)

(** Who may write the assignments of a course: its creator, when a lecturer,
    and an administrator. *)
Lemma assignment_write_policies p db a :
  let manages :=
    role p = admin
    ∨ (role p = lecturer ∧ created_course p db (Assignment.course_id a)) in
  (rls_with_check assignments_policies INSERT p db a = true ↔ manages)
  ∧ (rls_using assignments_policies DELETE p db a = true ↔ manages).
Proof.
  intros manages. unfold manages, assignments_policies.
  split; rls_unfold;
    rewrite orb_false_r, orb_true_iff, andb_true_iff, bool_decide_eq_true;
    rewrite courses_created_by_me_spec;
    apply (role_cases p); intros Hrole; as_role Hrole; rewrite Hrole;
    intuition (discriminate || eauto).
Qed.

(** X15: an insert into [assignments] is refused by the policies exactly
    when the session is neither an administrator nor a lecturer who created
    the course of the assignment, so a student can post nothing; it
    succeeds exactly when it is not refused, the id is new and the course
    and the user named in [created_by] exist.  The policies do not compare
    [created_by] with the session. *)
Theorem assignment_insert_rule p db a :
  let manages :=
    role p = admin
    ∨ (role p = lecturer ∧ created_course p db (Assignment.course_id a)) in
  (insert_assignment p db a = Error Forbidden ↔ ¬ manages)
  ∧ ((∃ db', insert_assignment p db a = Data db') ↔
     manages
     ∧ (Assignment.id a ∉ Assignment.id <$> assignments db)
     ∧ Assignment.course_id a ∈ (Course.id <$> courses db)
     ∧ Assignment.created_by a ∈ users db).
Proof.
  intros manages.
  destruct (assignment_write_policies p db a) as [Hchk _].
  fold manages in Hchk. unfold insert_assignment.
  destruct (rls_with_check assignments_policies INSERT p db a); simpl.
  - assert (Hm : manages) by by apply Hchk.
    split; [|split].
    + repeat case_bool_decide; simpl; split; try done; by intros [].
    + intros [db' Hins]. repeat case_bool_decide; simplify_eq/=; done.
    + intros (_ & Hid & Hcrs & Husr).
      rewrite (bool_decide_eq_false_2 _ Hid).
      rewrite (bool_decide_eq_true_2 _ Hcrs), (bool_decide_eq_true_2 _ Husr).
      by eexists.
  - assert (Hm : ¬ manages) by (intros Hm%Hchk; done).
    split; [done|]. split; [by intros [? ?] | by intros [? _]].
Qed.

(** X16: once an assignment is posted, every session with an enrollment in
    its course can read it, and a student without one cannot. *)
Theorem posted_assignment_readers p db a db' :
  insert_assignment p db a = Data db' →
  (∀ st, has_enrollment (pid st) (Assignment.course_id a) db →
         can_read_assignment st db' a)
  ∧ (∀ st, role st = student →
           ¬ has_enrollment (pid st) (Assignment.course_id a) db →
           ¬ can_read_assignment st db' a).
Proof.
  unfold insert_assignment. intros Hins.
  repeat (case_match; simplify_eq/=).
  set (db' := with_assignments db (assignments db ++ [a])).
  assert (Ha : a ∈ assignments db').
  { simpl. apply elem_of_app. right. by apply list_elem_of_singleton. }
  split.
  - intros st Henr. by apply enrolled_reads_assignment.
  - intros st Hrole Hno Hread. apply Hno.
    apply list_elem_of_filter in Hread as [Hpol _].
    apply Is_true_true in Hpol.
    by apply (student_assignment_select st db' a Hrole) in Hpol.
Qed.

Lemma posted_assignment_readers_witness :
  can_read_assignment Campus.S (Campus.db_enrolled "active") Campus.HW1
  ∧ ¬ can_read_assignment Campus.S2 (Campus.db_enrolled "active") Campus.HW1.
Proof.
  destruct (posted_assignment_readers Campus.L
              (with_assignments (Campus.db_enrolled "active") [])
              Campus.HW1 (Campus.db_enrolled "active"))
    as [Hin Hout]; [reflexivity|].
  split.
  - apply Hin. compute_done.
  - apply Hout; [reflexivity | compute_done].
Defined.

Lemma filter_iff_on {A} (P Q : A → Prop)
    `{∀ x, Decision (P x)} `{∀ x, Decision (Q x)} (l : list A) :
  (∀ x, x ∈ l → P x ↔ Q x) → filter P l = filter Q l.
Proof.
  induction l as [|a l IH]; intros HPQ; [done|].
  rewrite !filter_cons, IH by (intros x Hx; apply HPQ; by right).
  pose proof (HPQ a (list_elem_of_here a l)) as Ha.
  destruct (decide (P a)), (decide (Q a)); tauto.
Qed.

(** X17: deleting an assignment.  For a session that is neither an
    administrator nor the lecturer who created its course the delete is
    answered without an error and changes nothing; for those two it removes
    the assignment and, with it, every submission made for it, and leaves
    every other assignment and submission. *)
Theorem assignment_delete_rule p db a :
  a ∈ assignments db → assignments_pkey db →
  let manages :=
    role p = admin
    ∨ (role p = lecturer ∧ created_course p db (Assignment.course_id a)) in
  (¬ manages → delete_assignment p db (Assignment.id a) = Data db)
  ∧ (manages →
     ∃ db', delete_assignment p db (Assignment.id a) = Data db'
       ∧ assignments db'
         = filter (λ r, Assignment.id r ≠ Assignment.id a) (assignments db)
       ∧ submissions db'
         = filter (λ s, Submission.assignment_id s ≠ Assignment.id a)
                  (submissions db)).
Proof.
  intros Ha Hpk manages.
  destruct (assignment_write_policies p db a) as [_ Hdel].
  fold manages in Hdel.
  set (cond := λ r, bool_decide (Assignment.id r = Assignment.id a)).
  assert (Hid : ∀ r, r ∈ assignments db → cond r = bool_decide (r = a)).
  { intros r Hr. apply bool_decide_ext. split; [|by intros ->].
    by apply (key_identifies Assignment.id (assignments db)). }
  assert (Htarget : ∀ r, r ∈ assignments db →
            delete_target assignments_policies p db cond r = true
            ↔ r = a ∧ manages).
  { intros r Hr. unfold delete_target.
    rewrite !andb_true_iff, (Hid r Hr), bool_decide_eq_true.
    split.
    - intros [[-> _] Hd]. split; [done|]. by apply Hdel.
    - intros [-> Hm]. split; [split; [done|] | by apply Hdel].
      unfold assignments_policies. rls_unfold.
      destruct Hm as [Hrole | [Hrole Hcr]]; as_role Hrole.
      + by rewrite !orb_true_r.
      + rewrite (bool_decide_eq_true_2
                   (Assignment.course_id a ∈ courses_created_by_me p db));
          [by rewrite !orb_true_r|].
        by apply courses_created_by_me_spec. }
  split.
  - intros Hm. unfold delete_assignment. fold cond.
    assert (Hnone : filter (λ r, delete_target assignments_policies p db cond r
                                 = true) (assignments db) = []).
    { apply elem_of_nil_inv. intros r [Hd Hr]%list_elem_of_filter.
      apply (Htarget r Hr) in Hd as [_ ?]. done. }
    rewrite Hnone. unfold rls_delete.
    rewrite !filter_all; [by destruct db| |].
    + intros s _. apply not_elem_of_nil.
    + intros r Hr. apply not_true_is_false.
      intros [_ ?]%(Htarget r Hr). done.
  - intros Hm. eexists. split; [done|]. simpl. fold cond.
    assert (Hgone : filter (λ r, delete_target assignments_policies p db cond r
                                 = true) (assignments db) = [a]).
    { rewrite <- (filter_key_single Assignment.id (assignments db) a Hpk Ha).
      apply filter_iff_on. intros r Hr. rewrite (Htarget r Hr). split.
      - by intros [-> _].
      - intros Heq. split; [|done].
        by apply (key_identifies Assignment.id (assignments db)). }
    rewrite Hgone. split.
    + unfold rls_delete. apply filter_iff_on. intros r Hr.
      rewrite <- not_true_iff_false, (Htarget r Hr). split.
      * intros Hno Heq. apply Hno. split; [|done].
        by apply (key_identifies Assignment.id (assignments db)).
      * intros Hne [-> _]. done.
    + apply list_filter_iff. intros s. simpl.
      by rewrite list_elem_of_singleton.
Qed.

Lemma assignment_delete_rule_witness :
  delete_assignment Campus.S (Campus.db_answered None) 20
  = Data (Campus.db_answered None)
  ∧ ∃ db', delete_assignment Campus.L (Campus.db_answered None) 20 = Data db'
           ∧ assignments db' = [] ∧ submissions db' = [].
Proof.
  destruct (assignment_delete_rule Campus.S (Campus.db_answered None)
              Campus.HW1) as [Hno _].
  { vm_compute. apply list_elem_of_here. }
  { vm_compute. repeat constructor. apply not_elem_of_nil. }
  destruct (assignment_delete_rule Campus.L (Campus.db_answered None)
              Campus.HW1) as [_ Hyes].
  { vm_compute. apply list_elem_of_here. }
  { vm_compute. repeat constructor. apply not_elem_of_nil. }
  split.
  - apply Hno. compute_done.
  - destruct Hyes as (db' & Hdel & Ha & Hs).
    + right. split; [reflexivity | compute_done].
    + exists db'. split; [exact Hdel|]. by rewrite Ha, Hs.
Defined.

(** ** More of the progress view *)

Lemma course_progress_totals p db e c :
  e ∈ enrollments db → Enrollment.student_id e = pid p →
  ∃ cp, course_progress p db (Enrollment.course_id e, Some c) = Some cp
        ∧ course_title cp = Course.title c
        ∧ total_assignments cp
          = length (filter (λ a, Assignment.course_id a = Enrollment.course_id e)
                           (assignments db)).
Proof.
  intros He Hown. eexists. split; [done|]. simpl. split; [done|].
  rewrite enrolled_course_assignments_selected; [done|].
  apply Exists_exists. by exists e.
Qed.

(** X18: in the entry of a course, [course_title] is the title of a course
    with the id the enrollment names and [total_assignments] is the number
    of assignments of that course in the table: the policies hide none of
    them from an enrolled user. *)
Theorem progress_totals p db :
  enrollments_reference_courses db →
  ∃ progress,
    fetchAnalytics (Some p) db = SetProgress progress
    ∧ Forall2 (λ e cp,
         (∃ c, c ∈ courses db ∧ Course.id c = Enrollment.course_id e
               ∧ course_title cp = Course.title c)
         ∧ total_assignments cp
           = length (filter (λ a, Assignment.course_id a
                                  = Enrollment.course_id e)
                            (assignments db)))
        (filter (λ e, Enrollment.student_id e = pid p) (enrollments db))
        progress.
Proof.
  intros Hfk. unfold fetchAnalytics, enrollments_with_course.
  rewrite own_enrollments_selected.
  edestruct (mapM_fmap_Forall2
              (λ e, (Enrollment.course_id e,
                     head (filter (λ c, Course.id c = Enrollment.course_id e)
                                  (select_courses p db))))
              (course_progress p db))
    as (progress & Hrun & Hentries); [|exists progress; rewrite Hrun; eauto].
  apply Forall_forall. intros e [Hown He]%list_elem_of_filter.
  destruct (embedded_course p db e Hfk He) as [c Hc]. rewrite Hc.
  destruct (course_progress_totals p db e c He Hown) as (cp & Hcp & Ht & Hn).
  exists cp. split; [done|]. split; [|done].
  exists c. apply head_Some_elem_of in Hc.
  apply list_elem_of_filter in Hc as [Hid Hin]. done.
Qed.

Lemma progress_totals_witness :
  ∃ progress,
    fetchAnalytics (Some Campus.S) (Campus.db_answered None)
    = SetProgress progress
    ∧ total_assignments <$> progress = [1].
Proof.
  destruct (progress_totals Campus.S (Campus.db_answered None))
    as (progress & Hrun & Hentries).
  - vm_compute. repeat constructor.
  - exists progress. split; [exact Hrun|].
    vm_compute in Hrun. by injection Hrun as <-.
Defined.

(** Among the submissions of one student, the assignment identifies the
    submission. *)
Lemma student_submissions_distinct (l : list Submission.t) sid :
  NoDup (submission_key <$> l) →
  Forall (λ s, Submission.student_id s = sid) l →
  NoDup (Submission.assignment_id <$> l).
Proof.
  intros Hnd Hall. apply NoDup_fmap_2_strong; [|by eapply NoDup_fmap_1].
  rewrite Forall_forall in Hall.
  intros s1 s2 H1 H2 Heq.
  apply (key_identifies submission_key l); [done..|].
  unfold submission_key. by rewrite Heq, (Hall s1 H1), (Hall s2 H2).
Qed.

Lemma submitted_le_total p db cid :
  unique_submissions db →
  length (course_submissions p db cid)
  ≤ length (filter (λ a, Assignment.course_id a = cid)
                   (select_assignments p db)).
Proof.
  intros Huniq. unfold course_submissions, course_assignment_ids.
  set (F := filter (λ a, Assignment.course_id a = cid)
                   (select_assignments p db)).
  set (S := filter _ (select_submissions p db)).
  rewrite <- (length_fmap Submission.assignment_id S).
  rewrite <- (length_fmap Assignment.id F).
  apply submseteq_length, NoDup_submseteq.
  - apply (student_submissions_distinct S (pid p)).
    + unfold S, select_submissions. by do 2 apply NoDup_fmap_filter.
    + apply Forall_forall. by intros s [[? _] _]%list_elem_of_filter.
  - intros aid (s & -> & [[_ Hin] _]%list_elem_of_filter)%list_elem_of_fmap.
    done.
Qed.

Lemma rate_at_most_100 (s t : nat) :
  s ≤ t → 0 < t →
  (0 ≤ Qc_of_Z (Z.of_nat s) / Qc_of_Z (Z.of_nat t) * Qc_of_Z 100
   ∧ Qc_of_Z (Z.of_nat s) / Qc_of_Z (Z.of_nat t) * Qc_of_Z 100
     ≤ Qc_of_Z 100)%Qc.
Proof.
  intros Hst Ht.
  assert (Ht0 : (0 < Qc_of_Z (Z.of_nat t))%Qc).
  { rewrite <- Z2Qc_inj_0. apply (proj1 (Z2Qc_inj_lt _ _)). lia. }
  assert (Hs0 : (0 ≤ Qc_of_Z (Z.of_nat s))%Qc).
  { rewrite <- Z2Qc_inj_0. apply (proj1 (Z2Qc_inj_le _ _)). lia. }
  assert (H100 : (0 ≤ Qc_of_Z 100)%Qc).
  { rewrite <- Z2Qc_inj_0. apply (proj1 (Z2Qc_inj_le _ _)). lia. }
  assert (Hinv : (0 < / Qc_of_Z (Z.of_nat t))%Qc) by by apply Qcinv_pos.
  unfold Qcdiv. split.
  - apply Qcmult_nonneg_nonneg; [|done].
    apply Qcmult_nonneg_nonneg; [done|]. by apply Qclt_le_weak.
  - rewrite <- (Qcmult_1_l (Qc_of_Z 100)) at 2.
    apply Qcmult_le_mono_nonneg_r; [done|].
    rewrite <- (Qcmult_inv_r (Qc_of_Z (Z.of_nat t)))
      by (apply not_eq_sym, Qclt_not_eq, Ht0).
    apply Qcmult_le_mono_nonneg_r; [by apply Qclt_le_weak|].
    apply (proj1 (Z2Qc_inj_le _ _)). lia.
Qed.

(** X19: with [UNIQUE(assignment_id, student_id)] in force, no entry of the
    progress view counts more submissions than the course has assignments,
    and the completion rate lies between 0 and 100. *)
Theorem completion_rate_bounded p db progress :
  unique_submissions db →
  fetchAnalytics (Some p) db = SetProgress progress →
  Forall (λ cp, submitted_assignments cp ≤ total_assignments cp
                ∧ (0 ≤ completionRate cp)%Qc
                ∧ (completionRate cp ≤ Qc_of_Z 100)%Qc)
         progress.
Proof.
  intros Huniq. unfold fetchAnalytics.
  destruct (mapM _ _) as [k|] eqn:Hrun; [|done]. intros [= <-].
  apply mapM_Some_1 in Hrun.
  eapply Forall2_Forall_r; [exact Hrun|].
  apply Forall_forall. intros [cid [c|]] _ cp Hcp; [|done].
  simpl in Hcp. injection Hcp as <-.
  pose proof (submitted_le_total p db cid Huniq) as Hle.
  split; [done|]. unfold completionRate. simpl.
  case_bool_decide as Hpos.
  - by apply rate_at_most_100.
  - split; [done|]. rewrite <- Z2Qc_inj_0. apply (proj1 (Z2Qc_inj_le _ _)). lia.
Qed.

Lemma completion_rate_bounded_witness :
  Forall (λ cp, submitted_assignments cp ≤ total_assignments cp
                ∧ (0 ≤ completionRate cp)%Qc
                ∧ (completionRate cp ≤ Qc_of_Z 100)%Qc)
    [{| course_title := "CS101"; total_assignments := 1;
        submitted_assignments := 1; average_grade := None |}].
Proof.
  apply (completion_rate_bounded Campus.S (Campus.db_answered None)).
  - vm_compute. repeat constructor. apply not_elem_of_nil.
  - reflexivity.
Defined.

(** ** The rounded average of StudentProgressPage *)

(** [Math.round] of a quotient of integers, in integers. *)
Lemma Math_round_quotient (a : Z) (n : positive) :
  Math_round (Qc_of_Z a / Qc_of_Z (Z.pos n))%Qc
  = ((2 * a + Z.pos n) / (2 * Z.pos n))%Z.
Proof.
  unfold Math_round.
  transitivity (Qfloor (QArith_base.Qmake (2 * a + Z.pos n) (2 * n)));
    [|done].
  apply Qfloor_comp.
  unfold Qcdiv, Qcmult, Qcplus, Qcinv, Q2Qc, Qc_of_Z. cbn [this].
  rewrite !Qreduction.Qred_correct.
  unfold QArith_base.Qeq, QArith_base.Qplus, QArith_base.Qmult,
    QArith_base.Qinv, QArith_base.inject_Z.
  simpl. lia.
Qed.

(** The graded submissions and their sum, as the list of non-null grades. *)
Lemma graded_length (l : list Submission.t) :
  length (filter (λ s, Submission.grade s ≠ None) l)
  = length (non_null_grades l).
Proof.
  unfold non_null_grades. induction l as [|s l IH]; [done|].
  rewrite filter_cons. cbn [omap list_omap].
  destruct (Submission.grade s) as [g|] eqn:Hg.
  - rewrite decide_True by congruence. simpl. by rewrite IH.
  - by rewrite decide_False by (intros H; by apply H).
Qed.

Lemma graded_total (l : list Submission.t) (a : Z) :
  foldl (λ sum s, (sum + default 0 (Submission.grade s))%Z) a
        (filter (λ s, Submission.grade s ≠ None) l)
  = foldl Z.add a (non_null_grades l).
Proof.
  unfold non_null_grades. revert a. induction l as [|s l IH]; intros a; [done|].
  rewrite filter_cons. cbn [omap list_omap].
  destruct (Submission.grade s) as [g|] eqn:Hg.
  - rewrite decide_True by congruence. simpl. by rewrite Hg, IH.
  - rewrite decide_False by (intros H; by apply H). apply IH.
Qed.

Lemma sum_between (l : list Z) (lo hi : Z) :
  Forall (λ g, lo ≤ g ≤ hi)%Z l →
  (Z.of_nat (length l) * lo ≤ foldr Z.add 0 l
   ∧ foldr Z.add 0 l ≤ Z.of_nat (length l) * hi)%Z.
Proof.
  induction 1 as [|g l Hg _ IH]; simpl; lia.
Qed.

(** X20: [calculateAverageGrade] is [Math.round] of the average that
    AnalyticsPage computes from the same submissions: null exactly when no
    submission has a grade; otherwise the integer nearest to the mean of
    the non-null grades, a half going up; it lies between any two bounds
    that hold for every grade. *)
Theorem rounded_average (l : list Submission.t) :
  calculateAverageGrade l = Math_round <$> avgGrade (non_null_grades l)
  ∧ (calculateAverageGrade l = None
     ↔ Forall (λ s, Submission.grade s = None) l)
  ∧ ∀ r, calculateAverageGrade l = Some r →
      let n := Z.of_nat (length (non_null_grades l)) in
      let total := foldr Z.add 0%Z (non_null_grades l) in
      (2 * n * r ≤ 2 * total + n ∧ 2 * total + n < 2 * n * (r + 1))%Z
      ∧ ∀ lo hi, Forall (λ g, lo ≤ g ≤ hi)%Z (non_null_grades l) →
                 (lo ≤ r ≤ hi)%Z.
Proof.
  assert (Heq : calculateAverageGrade l
                = Math_round <$> avgGrade (non_null_grades l)).
  { unfold calculateAverageGrade, avgGrade.
    rewrite graded_length, graded_total.
    destruct (non_null_grades l) as [|g gs]; [done|].
    rewrite bool_decide_eq_false_2, bool_decide_eq_true_2 by (simpl; lia).
    done. }
  split; [done|]. split.
  - rewrite Heq, <- non_null_grades_nil, <- avgGrade_None.
    by destruct (avgGrade (non_null_grades l)).
  - intros r. rewrite Heq. unfold avgGrade.
    destruct (non_null_grades l) as [|g gs] eqn:Hgs; [done|].
    rewrite bool_decide_eq_true_2 by (simpl; lia).
    rewrite foldl_add_foldr, Z.add_0_l.
    replace (Z.of_nat (length (g :: gs)))
      with (Z.pos (Pos.of_succ_nat (length gs))) by (simpl; lia).
    simpl fmap. rewrite Math_round_quotient. intros [= <-].
    set (n := Z.pos (Pos.of_succ_nat (length gs))).
    set (total := (g + foldr Z.add 0 gs)%Z).
    change (foldr Z.add 0%Z (g :: gs)) with total.
    assert (Hn : (0 < 2 * n)%Z) by lia.
    pose proof (Z.mul_div_le (2 * total + n) (2 * n) Hn).
    pose proof (Z.mul_succ_div_gt (2 * total + n) (2 * n) Hn).
    split; [lia|]. intros lo hi Hall.
    apply sum_between in Hall.
    change (foldr Z.add 0%Z (g :: gs)) with total in Hall.
    replace (Z.of_nat (length (g :: gs))) with n in Hall
      by (unfold n; simpl; lia).
    split.
    + apply Z.div_le_lower_bound; lia.
    + apply Z.lt_succ_r, Z.div_lt_upper_bound; lia.
Qed.

Lemma rounded_average_witness :
  calculateAverageGrade [Campus.answer_of_S (Some 85%Z)] = Some 85%Z
  ∧ (85 ≤ 85 ≤ 100)%Z.
Proof.
  destruct (rounded_average [Campus.answer_of_S (Some 85%Z)])
    as (_ & _ & Hr).
  split; [reflexivity|].
  destruct (Hr 85%Z) as [_ Hrange]; [reflexivity|].
  apply (Hrange 85%Z 100%Z). vm_compute. repeat constructor; discriminate.
Defined.

(** ** Updating a notification of one's own *)

Lemma select_notifications_own q db :
  select_notifications q db
  = filter (λ n, Notification.user_id n = pid q) (notifications db).
Proof.
  unfold select_notifications. apply list_filter_iff. intros n.
  rewrite Is_true_true, notification_using by auto.
  rewrite bool_decide_eq_true. split; congruence.
Qed.

Lemma filter_fmap_stable {A} (P : A → Prop) `{∀ x, Decision (P x)}
    (f : A → A) (l : list A) :
  (∀ x, P (f x) ↔ P x) → filter P (f <$> l) = f <$> filter P l.
Proof.
  intros Hf. induction l as [|a l IH]; [done|].
  rewrite fmap_cons, !filter_cons, IH.
  pose proof (Hf a). destruct (decide (P (f a))), (decide (P a)); tauto.
Qed.

(** X21: an update of a notification that leaves [user_id] alone, such as
    marking it as read.  For a session whose user exists the update is
    applied; it changes the notification with that id when it is addressed
    to the session, and no other; what the session reads afterwards is what
    it read before with that notification changed, and what any other user
    reads is unchanged. *)
Theorem own_notification_update_effect p db nid u :
  pid p ∈ users db → NotificationPatch.user_id u = None →
  ∃ db',
    update_notification p db nid u = Data db'
    ∧ select_notifications p db'
      = (λ n, if bool_decide (Notification.id n = nid)
              then NotificationPatch.apply u n else n)
        <$> select_notifications p db
    ∧ ∀ q, pid q ≠ pid p →
           select_notifications q db' = select_notifications q db.
Proof.
  intros Husr Hu. unfold update_notification.
  rewrite rls_update_passes.
  2:{ intros n _ Ht. rewrite notification_target in Ht.
      apply andb_true_iff in Ht as [_ Ht%bool_decide_eq_true].
      rewrite notification_update_check. simpl. rewrite Hu. simpl.
      split; apply bool_decide_eq_true; [done | by rewrite <- Ht]. }
  eexists. split; [done|].
  set (f := λ n, if update_target notifications_policies p db
                      (λ n, bool_decide (Notification.id n = nid)) n
                 then NotificationPatch.apply u n else n).
  assert (Huid : ∀ n, Notification.user_id (f n) = Notification.user_id n).
  { intros n. unfold f. destruct (update_target _ _ _ _ n); [|done].
    simpl. by rewrite Hu. }
  split.
  - rewrite !select_notifications_own. simpl.
    rewrite filter_fmap_stable by (intros n; by rewrite Huid).
    apply fmap_same_on. intros n [Hn _]%list_elem_of_filter.
    unfold f. rewrite notification_target.
    by rewrite (bool_decide_eq_true_2 (pid p = _)), andb_true_r.
  - intros q Hq. rewrite !select_notifications_own. simpl.
    rewrite filter_fmap_stable by (intros n; by rewrite Huid).
    rewrite <- (list_fmap_id (filter _ (notifications db))) at 2.
    apply fmap_same_on. intros n [Hn _]%list_elem_of_filter.
    unfold f. rewrite notification_target.
    rewrite (bool_decide_eq_false_2 (pid p = _)) by congruence.
    by rewrite andb_false_r.
Qed.

Lemma own_notification_update_effect_witness :
  ∃ db',
    update_notification Campus.S Campus.db_notified 50 mark_read = Data db'
    ∧ Notification.read <$> select_notifications Campus.S db' = [true].
Proof.
  destruct (own_notification_update_effect Campus.S Campus.db_notified 50
              mark_read)
    as (db' & Hupd & Hmine & _); [compute_done|done|].
  exists db'. split; [exact Hupd|]. by rewrite Hmine.
Defined.

(** ** The backfill of [lecturer_id] *)

(** X22: after the migration's backfill every course has a lecturer: the
    creator where the column was null, the lecturer it had otherwise; no
    other column changes and the policies, which read [created_by], give
    every session the courses it had created before; running the statement
    again changes nothing. *)
Theorem backfill_sets_every_lecturer db :
  Forall2 (λ c c',
      Course.lecturer_id c'
      = Some (default (Course.created_by c) (Course.lecturer_id c))
      ∧ Course.id c' = Course.id c ∧ Course.title c' = Course.title c
      ∧ Course.description c' = Course.description c
      ∧ Course.created_by c' = Course.created_by c)
    (courses db) (courses (backfill_lecturer_id db))
  ∧ (∀ p, courses_created_by_me p (backfill_lecturer_id db)
          = courses_created_by_me p db)
  ∧ backfill_lecturer_id (backfill_lecturer_id db) = backfill_lecturer_id db.
Proof.
  split; [|split].
  - simpl. apply Forall2_fmap_r, Forall_Forall2_diag, Forall_forall.
    intros c _. simpl. by destruct (Course.lecturer_id c) eqn:Hl.
  - intros p. unfold courses_created_by_me, select_courses. simpl.
    induction (courses db) as [|c l IH]; [done|].
    rewrite fmap_cons, !filter_cons.
    assert (Hby : ∀ c' : Course.t,
              Course.created_by (if Course.lecturer_id c is None
                 then {| Course.id := Course.id c;
                         Course.title := Course.title c;
                         Course.description := Course.description c;
                         Course.created_by := Course.created_by c;
                         Course.lecturer_id := Some (Course.created_by c) |}
                 else c) = Course.created_by c)
      by (intros _; by destruct (Course.lecturer_id c)).
    rewrite (Hby c). case_decide; rewrite ?fmap_cons, IH; [|done].
    f_equal. by destruct (Course.lecturer_id c).
  - unfold backfill_lecturer_id. simpl. f_equal.
    rewrite <- list_fmap_compose. apply list_fmap_ext.
    intros _ c _. simpl.
    destruct (Course.lecturer_id c) eqn:Hl; simpl; by rewrite ?Hl.
Qed.
